(** * PageIndex RAG chatbot: request orchestration

    A shallow embedding of [core/llm_engine.py] and [core/routes.py]
    (upload, chat and delete handlers together with the LLM call wrapper)
    and the properties of the two-stage retrieval protocol, the upload
    validation and cleanup, and the two in-memory maps.

    Conventions of the embedding.
    - Python [str] values are Rocq strings holding the UTF-8 bytes.
    - Values produced by [json.loads] / [response.json()] are terms of
      [json]; a Python dict is an association list in insertion order.
    - The handlers run in a state-and-exception monad over [World]: the two
      module-level dicts, the upload directory, the log of calls made to
      the outside world and the number of random ids drawn so far.
    - The outside world (document service, LLM endpoint, clock, entropy
      source, the printing helpers and the JSON codec of the standard
      library) is a record [Env] of functions; every theorem holds for all
      of them.
    - Calls to [logger] and [print] are not modelled. *)

From Stdlib Require Import Ascii String QArith.
From stdpp Require Import gmap strings list fin_maps pretty.

Set Default Proof Using "Type".
Set Warnings "-register-all".
Open Scope string_scope.
Open Scope Z_scope.

(** ** Python values *)

Module Py.

(** A value as [json.loads] returns it. *)
Inductive json : Type :=
| JNull
| JBool (b : bool)
| JNum (n : Z)
| JStr (s : string)
| JArr (items : list json)
| JObj (members : list (string * json)).

(** Exceptions that the handlers raise, catch or let through. *)
Inductive exn : Type :=
| HTTPException (status_code : Z) (detail : json)
| KeyError (key : json)
| IndexError
| TypeError
| JSONDecodeError
| ValidationError
| OSError
| External (what : string).

Inductive result (A : Type) : Type :=
| Ok (a : A)
| Raise (e : exn).
Arguments Ok {A} a.
Arguments Raise {A} e.

Definition is_ok {A} (r : result A) : bool :=
  match r with Ok _ => true | Raise _ => false end.

#[global] Instance result_ret : MRet result := @Ok.
#[global] Instance result_bind : MBind result :=
  fun A B k r => match r with Ok a => k a | Raise e => Raise e end.

(** [d[k]] for a dict given as its items; a later item with the same key
    overrides an earlier one, as when the dict is built item by item. *)
Fixpoint dict_get (members : list (string * json)) (k : string) : option json :=
  match members with
  | [] => None
  | (k', v) :: rest =>
      match dict_get rest k with
      | Some v' => Some v'
      | None => if String.eqb k' k then Some v else None
      end
  end.

(** [k in d]. *)
Definition dict_has (members : list (string * json)) (k : string) : bool :=
  match dict_get members k with Some _ => true | None => false end.

(** The keys of a dict in iteration order (first insertion, no repeats). *)
Fixpoint dict_keys (seen : list string) (members : list (string * json)) : list string :=
  match members with
  | [] => []
  | (k, _) :: rest =>
      if existsb (String.eqb k) seen then dict_keys seen rest
      else k :: dict_keys (k :: seen) rest
  end.

(** [v[k]] with a string key. *)
Definition getitem (v : json) (k : string) : result json :=
  match v with
  | JObj members =>
      match dict_get members k with
      | Some x => Ok x
      | None => Raise (KeyError (JStr k))
      end
  | _ => Raise TypeError
  end.

(** A continuation byte of a UTF-8 sequence, [10xxxxxx]. *)
Definition is_continuation (c : ascii) : bool :=
  let n := nat_of_ascii c in ((128 <=? n)%nat && (n <? 192)%nat)%bool.

(** The characters of a [str]: the UTF-8 bytes of a string, one group per
    code point. *)
Fixpoint chars_from (cur : string) (s : string) : list string :=
  match s with
  | EmptyString => [cur]
  | String c rest =>
      if is_continuation c then chars_from (cur +:+ String c EmptyString) rest
      else cur :: chars_from (String c EmptyString) rest
  end.

Definition chars (s : string) : list string :=
  match s with
  | EmptyString => []
  | String c rest => chars_from (String c EmptyString) rest
  end.

(** [v[0]]. *)
Definition getitem0 (v : json) : result json :=
  match v with
  | JArr (x :: _) => Ok x
  | JArr [] => Raise IndexError
  | JStr s =>
      match chars s with
      | c :: _ => Ok (JStr c)
      | [] => Raise IndexError
      end
  | JObj _ => Raise (KeyError (JNum 0))
  | _ => Raise TypeError
  end.

(** The items a [for x in v] loop visits. *)
Definition iter (v : json) : result (list json) :=
  match v with
  | JArr items => Ok items
  | JStr s => Ok (JStr <$> chars s)
  | JObj members => Ok (JStr <$> dict_keys [] members)
  | _ => Raise TypeError
  end.

(** [isinstance(v, dict) and "error" in v]. *)
Definition is_error (v : json) : bool :=
  match v with
  | JObj members => dict_has members "error"
  | _ => false
  end.

(** The dict literal [{"error": msg}]. *)
Definition error_dict (msg : string) : json := JObj [("error", JStr msg)].

(** [sep.join(parts)]. *)
Fixpoint join (sep : string) (parts : list string) : string :=
  match parts with
  | [] => ""
  | [p] => p
  | p :: rest => p +:+ sep +:+ join sep rest
  end.

(** [str.lower] on the ASCII letters; bytes of a multi-byte UTF-8 sequence
    are at least 128 and no character outside ASCII lowers to one of the
    characters of ".pdf", so this agrees with Python on every suffix test
    against an ASCII suffix. *)
Definition lower_ascii (c : ascii) : ascii :=
  let n := nat_of_ascii c in
  if ((65 <=? n)%nat && (n <=? 90)%nat)%bool then ascii_of_nat (n + 32) else c.

Fixpoint lower (s : string) : string :=
  match s with
  | EmptyString => EmptyString
  | String c rest => String (lower_ascii c) (lower rest)
  end.

(** [s.endswith(suffix)]. *)
Definition endswith (s suffix : string) : bool :=
  let n := String.length s in
  let m := String.length suffix in
  if (m <=? n)%nat then String.eqb (substring (n - m) m s) suffix else false.

(** [s.startswith(prefix)]. *)
Definition startswith (s pre : string) : bool := String.prefix pre s.

(** [os.path.join(a, b)] of [posixpath]. *)
Definition os_path_join (a b : string) : string :=
  if startswith b "/" then b
  else if (String.eqb a "" || endswith a "/")%bool then a +:+ b
  else a +:+ "/" +:+ b.

End Py.

(** ** The document tree of the external document service *)

Module PageIndex.

(** A node of the tree that [get_tree] returns (spec, data model):
    identifier, title, summary, page index, full text and the child nodes.
    [text] is optional because the tree shown to the model has that key
    removed. *)
Inductive TreeNode : Type :=
  mkTreeNode {
    node_id : string;
    title : string;
    summary : string;
    page_index : Z;
    text : option string;
    nodes : list TreeNode
  }.

(** Every node of a forest, parents before children. *)
Fixpoint get_all_nodes (n : TreeNode) : list TreeNode :=
  n :: flat_map get_all_nodes (nodes n).

Definition all_nodes (tree : list TreeNode) : list TreeNode :=
  flat_map get_all_nodes tree.

(** Modelled from the spec: [pageindex.utils.remove_fields] is a function
    of the PageIndex SDK and is not part of the sources. At its only call
    site, [remove_fields(tree.copy(), fields=['text'])], it yields "the
    full tree with the text field stripped from every node (titles and
    summaries only)"; it builds a new tree and leaves its argument
    alone. *)
Fixpoint remove_fields_text (n : TreeNode) : TreeNode :=
  {| node_id := node_id n;
     title := title n;
     summary := summary n;
     page_index := page_index n;
     text := None;
     nodes := map remove_fields_text (nodes n) |}.

Definition remove_fields (tree : list TreeNode) : list TreeNode :=
  map remove_fields_text tree.

(** Modelled from the spec: [pageindex.utils.create_node_mapping] is a
    function of the PageIndex SDK and is not part of the sources. It is
    the "flattened id→node index built from the full tree"; as in a dict
    built node by node, a later node with the same id replaces an earlier
    one. *)
Definition create_node_mapping (tree : list TreeNode) : gmap string TreeNode :=
  foldl (fun m n => <[node_id n := n]> m) ∅ (all_nodes tree).

End PageIndex.

(** ** Configuration ([core/config.py]) *)

Module Config.

(** The options of [class Config] that the handlers read. *)
Record Config : Type :=
  mkConfig {
    PDF_STORAGE_PATH : string;
    MAX_FILE_SIZE : Z;
    LLM_TEMPERATURE : Q;
    LLM_MAX_TOKENS : Z;
    PAGEINDEX_API_KEY : string;
    URL_CUSTOM_LLM : string;
    TOKEN_CUSTOM_LLM : string
  }.

(** The defaults of the class. *)
Definition defaults : Config :=
  {| PDF_STORAGE_PATH := "./uploaded_pdfs";
     MAX_FILE_SIZE := 10 * 1024 * 1024;
     LLM_TEMPERATURE := 0%Q;
     LLM_MAX_TOKENS := 3000;
     PAGEINDEX_API_KEY := "";
     URL_CUSTOM_LLM := "";
     TOKEN_CUSTOM_LLM := "" |}.

End Config.

(** ** The outside world and the program state *)

Module Sys.
Import Py PageIndex Config.

(** The JSON body of the request to the LLM endpoint. *)
Record Payload : Type :=
  mkPayload {
    model : string;
    messages : list (string * string);   (* role, content *)
    max_tokens : Z;
    temperature : Q;
    stream : bool
  }.

(** An [httpx.Response]. *)
Record Response : Type :=
  mkResponse {
    status_code : Z;
    body : string
  }.

(** What [open(path, "wb")] followed by [f.write(data)] does. *)
Inductive write_outcome : Type :=
| Written
| OpenFailed
| WriteFailed (written : nat).

(** A call that leaves the process. *)
Inductive event : Type :=
| EvPost (url token : string) (payload : Payload)
| EvSubmit (file_path : string)
| EvReady (doc_id : json)
| EvTree (doc_id : json).

(** The collaborators. The first argument of a remote call is the number
    of calls made before it, so that an answer may change over time. *)
Record Env : Type :=
  mkEnv {
    settings : Config;
    urandom : nat -> N;
    utcnow : nat -> Z;
    disk_write : nat -> string -> write_outcome;
    client_post : nat -> string -> string -> Payload -> result Response;
    submit_document : nat -> string -> option (list Byte.byte) -> result json;
    is_retrieval_ready : nat -> json -> result bool;
    get_tree : nat -> json -> result (list TreeNode);
    print_tree : list TreeNode -> result unit;
    print_wrapped : json -> result unit;
    json_loads : string -> option json;
    json_dumps : list TreeNode -> string;
    exn_str : exn -> string
  }.

(** A value of the dict [pdf_storage]. *)
Record PdfInfo : Type :=
  mkPdfInfo {
    filename : string;
    file_path : string;
    doc_id : json;
    upload_time : Z
  }.

Record World : Type :=
  mkWorld {
    pdf_storage : gmap string PdfInfo;
    doc_storage : gmap string json;
    disk : gmap string (list Byte.byte);
    log : list event;
    draws : nat
  }.

(** The state at import time: both dicts empty. *)
Definition boot (files : gmap string (list Byte.byte)) : World :=
  {| pdf_storage := ∅; doc_storage := ∅; disk := files; log := []; draws := 0 |}.

Definition with_pdf_storage (f : gmap string PdfInfo -> gmap string PdfInfo) (w : World) : World :=
  {| pdf_storage := f (pdf_storage w); doc_storage := doc_storage w;
     disk := disk w; log := log w; draws := draws w |}.

Definition with_doc_storage (f : gmap string json -> gmap string json) (w : World) : World :=
  {| pdf_storage := pdf_storage w; doc_storage := f (doc_storage w);
     disk := disk w; log := log w; draws := draws w |}.

Definition with_disk (f : gmap string (list Byte.byte) -> gmap string (list Byte.byte)) (w : World) : World :=
  {| pdf_storage := pdf_storage w; doc_storage := doc_storage w;
     disk := f (disk w); log := log w; draws := draws w |}.

Definition with_event (ev : event) (w : World) : World :=
  {| pdf_storage := pdf_storage w; doc_storage := doc_storage w;
     disk := disk w; log := log w ++ [ev]; draws := draws w |}.

Definition with_draw (w : World) : World :=
  {| pdf_storage := pdf_storage w; doc_storage := doc_storage w;
     disk := disk w; log := log w; draws := S (draws w) |}.

(** *** The monad of the handlers *)

Definition M (A : Type) : Type := World -> result A * World.

Definition ret {A} (a : A) : M A := fun w => (Ok a, w).

Definition bind {A B} (m : M A) (k : A -> M B) : M B :=
  fun w =>
    match m w with
    | (Ok a, w') => k a w'
    | (Raise e, w') => (Raise e, w')
    end.

Definition raise {A} (e : exn) : M A := fun w => (Raise e, w).

(** [try: m except Exception as e: h e]; what [m] did before it raised
    stays done. *)
Definition try_except {A} (m : M A) (h : exn -> M A) : M A :=
  fun w =>
    match m w with
    | (Ok a, w') => (Ok a, w')
    | (Raise e, w') => h e w'
    end.

Definition lift {A} (r : result A) : M A := fun w => (r, w).

Definition gets {A} (f : World -> A) : M A := fun w => (Ok (f w), w).

Definition modify (f : World -> World) : M unit := fun w => (Ok tt, f w).

#[global] Instance M_ret : MRet M := @ret.
#[global] Instance M_bind : MBind M := fun A B k m => bind m k.

(** *** [uuid.uuid4] *)

(** Version and variant bits of a version 4 UUID over 16 random bytes. *)
Definition uuid4_int (r : N) : N :=
  let i := (r mod 2 ^ 128)%N in
  let i := N.ldiff i (N.shiftl 0xc000 48) in
  let i := N.lor i (N.shiftl 0x8000 48) in
  let i := N.ldiff i (N.shiftl 0xf000 64) in
  N.lor i (N.shiftl 4 76).

Definition hex_digit (d : N) : ascii :=
  match d with
  | 0 => "0" | 1 => "1" | 2 => "2" | 3 => "3" | 4 => "4" | 5 => "5"
  | 6 => "6" | 7 => "7" | 8 => "8" | 9 => "9" | 10 => "a" | 11 => "b"
  | 12 => "c" | 13 => "d" | 14 => "e" | _ => "f"
  end%N%char.

(** The last [k] hexadecimal digits of [n] in front of [acc]. *)
Fixpoint hex_digits (k : nat) (n : N) (acc : string) : string :=
  match k with
  | O => acc
  | S k' => hex_digits k' (n / 16)%N (String (hex_digit (n mod 16)%N) acc)
  end.

(** [str(UUID(int=i))]: 32 digits in groups of 8, 4, 4, 4 and 12. *)
Definition uuid_str (i : N) : string :=
  let h := hex_digits 32 i "" in
  substring 0 8 h +:+ "-" +:+ substring 8 4 h +:+ "-" +:+ substring 12 4 h
  +:+ "-" +:+ substring 16 4 h +:+ "-" +:+ substring 20 12 h.

Section Effects.
Context (env : Env).

(** [str(uuid.uuid4())]. *)
Definition uuid4 : M string :=
  fun w => (Ok (uuid_str (uuid4_int (urandom env (draws w)))), with_draw w).

(** [datetime.utcnow()]. *)
Definition datetime_utcnow : M Z :=
  gets (fun w => utcnow env (length (log w))).

(** [with open(path, "wb") as f: f.write(data)]. *)
Definition write_file (path : string) (data : list Byte.byte) : M unit :=
  fun w =>
    match disk_write env (length (log w)) path with
    | Written => (Ok tt, with_disk <[path := data]> w)
    | OpenFailed => (Raise OSError, w)
    | WriteFailed n => (Raise OSError, with_disk <[path := take n data]> w)
    end.

(** [os.path.exists(path)]. *)
Definition os_path_exists (path : string) : M bool :=
  gets (fun w => bool_decide (is_Some (disk w !! path))).

(** [os.remove(path)] of a file of the upload directory. *)
Definition os_remove (path : string) : M unit :=
  modify (with_disk (delete path)).

(** [await client.post(url, json=payload, headers=...)]; the token travels
    in the [x-api-key] header. *)
Definition post (url token : string) (payload : Payload) : M Response :=
  fun w =>
    (client_post env (length (log w)) url token payload,
     with_event (EvPost url token payload) w).

(** [pi_client.submit_document(file_path)]: the service reads the file. *)
Definition pi_submit_document (path : string) : M json :=
  fun w =>
    (submit_document env (length (log w)) path (disk w !! path),
     with_event (EvSubmit path) w).

(** [pi_client.is_retrieval_ready(doc_id)]. *)
Definition pi_is_retrieval_ready (d : json) : M bool :=
  fun w => (is_retrieval_ready env (length (log w)) d, with_event (EvReady d) w).

(** [pi_client.get_tree(doc_id, node_summary=True)['result']]. *)
Definition pi_get_tree (d : json) : M (list TreeNode) :=
  fun w => (get_tree env (length (log w)) d, with_event (EvTree d) w).

(** [json.loads(v)]: only a [str] is accepted. *)
Definition loads (v : json) : result json :=
  match v with
  | JStr s =>
      match json_loads env s with
      | Some j => Ok j
      | None => Raise JSONDecodeError
      end
  | _ => Raise TypeError
  end.

End Effects.
End Sys.

(** ** [core/llm_engine.py] *)

Module LlmEngine.
Import Py PageIndex Config Sys.

Section WithEnv.
Context (env : Env).

Definition URL_CUSTOM_LLM_APILOGY : string := URL_CUSTOM_LLM (settings env).
Definition TOKEN_CUSTOM_LLM_APILOGY : string := TOKEN_CUSTOM_LLM (settings env).

(** [response.json()['choices'][0]['message']['content']]. *)
Definition response_content (response : Response) : result json :=
  match json_loads env (body response) with
  | None => Raise JSONDecodeError
  | Some j =>
      match getitem j "choices" with
      | Raise e => Raise e
      | Ok choices =>
          match getitem0 choices with
          | Raise e => Raise e
          | Ok choice =>
              match getitem choice "message" with
              | Raise e => Raise e
              | Ok message => getitem message "content"
              end
          end
      end
  end.

Definition make_async_api_call (url token : string) (payload : Payload) : M json :=
  try_except
    (response ← post env url token payload;
     if status_code response =? 200 then
       lift (response_content response)
     else
       mret (error_dict ("API call failed with status " +:+ pretty (status_code response))))
    (fun e => mret (error_dict (exn_str env e))).

Definition telkomllm_call (prompt : string) (max_tokens : Z) (temperature : Q) : M json :=
  let url := URL_CUSTOM_LLM_APILOGY in
  let token := TOKEN_CUSTOM_LLM_APILOGY in
  let payload :=
    {| model := "telkom-ai-instruct";
       messages := [("system", prompt)];
       max_tokens := max_tokens;
       temperature := temperature;
       stream := false |} in
  result ← make_async_api_call url token payload;
  if is_error result then
    make_async_api_call URL_CUSTOM_LLM_APILOGY TOKEN_CUSTOM_LLM_APILOGY payload
  else
    mret result.

End WithEnv.
End LlmEngine.

(** ** [core/routes.py] *)

Module Routes.
Import Py PageIndex Config Sys LlmEngine.

Record UploadFile : Type :=
  mkUploadFile {
    upload_filename : string;
    upload_content : list Byte.byte
  }.

Record UploadResponse : Type :=
  mkUploadResponse {
    up_pdf_id : string;
    up_filename : string;
    up_status : string
  }.

Record ChatRequest : Type :=
  mkChatRequest {
    message : string;
    pdf_id : string;
    session_id : option string
  }.

Record ChatResponse : Type :=
  mkChatResponse {
    response : string;
    chat_session_id : string;
    timestamp : Z
  }.

Definition nl : string := String "010"%char EmptyString.
Definition dq : string := String "034"%char EmptyString.

(** The f-string of the node-selection prompt, around the question and the
    dumped tree. *)
Definition search_prompt (question dumped_tree : string) : string :=
  nl +:+
  "        You are given a question and a tree structure of a document." +:+ nl +:+
  "        Each node contains a node id, node title, and a corresponding summary." +:+ nl +:+
  "        Your task is to find all nodes that are likely to contain the answer to the question." +:+ nl +:+
  nl +:+
  "        Question: " +:+ question +:+ nl +:+
  nl +:+
  "        Document tree structure:" +:+ nl +:+
  "        " +:+ dumped_tree +:+ nl +:+
  nl +:+
  "        Please reply in the following JSON format:" +:+ nl +:+
  "        {" +:+ nl +:+
  "            " +:+ dq +:+ "thinking" +:+ dq +:+ ": " +:+ dq +:+
  "<Your thinking process on which nodes are relevant to the question>" +:+ dq +:+ "," +:+ nl +:+
  "            " +:+ dq +:+ "node_list" +:+ dq +:+ ": [" +:+ dq +:+ "node_id_1" +:+ dq +:+ ", " +:+
  dq +:+ "node_id_2" +:+ dq +:+ ", ..., " +:+ dq +:+ "node_id_n" +:+ dq +:+ "]" +:+ nl +:+
  "        }" +:+ nl +:+
  "        Directly return the final JSON structure. Do not output anything else." +:+ nl +:+
  "        ".

(** The f-string of the answer-synthesis prompt. *)
Definition answer_prompt (question relevant_content : string) : string :=
  nl +:+
  "        Answer the question based on the context:" +:+ nl +:+
  nl +:+
  "        Question: " +:+ question +:+ nl +:+
  "        Context: " +:+ relevant_content +:+ nl +:+
  nl +:+
  "        Provide a clear, concise answer based only on the context provided." +:+ nl +:+
  "        ".

(** [node_map[k]] for a key that came out of the parsed reply. The keys of
    the index are strings: another hashable value is never found and a
    list or dict cannot be hashed. *)
Definition node_map_getitem (node_map : gmap string TreeNode) (k : json) : result TreeNode :=
  match k with
  | JStr s =>
      match node_map !! s with
      | Some node => Ok node
      | None => Raise (KeyError k)
      end
  | JArr _ | JObj _ => Raise TypeError
  | _ => Raise (KeyError k)
  end.

(** [node["text"]]. *)
Definition node_text (node : TreeNode) : result string :=
  match text node with
  | Some t => Ok t
  | None => Raise (KeyError (JStr "text"))
  end.

(** The loop [for node_id in ...: node = node_map[node_id]; print(...)]. *)
Fixpoint retrieved_nodes (node_map : gmap string TreeNode) (ids : list json) : result unit :=
  match ids with
  | [] => Ok tt
  | k :: rest =>
      match node_map_getitem node_map k with
      | Ok _ => retrieved_nodes node_map rest
      | Raise e => Raise e
      end
  end.

(** The generator [node_map[node_id]["text"] for node_id in node_list], as
    [join] consumes it. *)
Fixpoint node_texts (node_map : gmap string TreeNode) (ids : list json) : result (list string) :=
  match ids with
  | [] => Ok []
  | k :: rest =>
      match node_map_getitem node_map k with
      | Raise e => Raise e
      | Ok node =>
          match node_text node with
          | Raise e => Raise e
          | Ok t =>
              match node_texts node_map rest with
              | Raise e => Raise e
              | Ok ts => Ok (t :: ts)
              end
          end
      end
  end.

Section WithEnv.
Context (env : Env).

Definition upload_pdf (file : UploadFile) : M UploadResponse :=
  if negb (endswith (lower (upload_filename file)) ".pdf") then
    raise (HTTPException 400 (JStr "Only PDF files are allowed"))
  else
    let file_content := upload_content file in
    if Z.of_nat (length file_content) >? MAX_FILE_SIZE (settings env) then
      raise (HTTPException 400 (JStr "File size exceeds maximum allowed size"))
    else
      pdf_id ← uuid4 env;
      let file_path := os_path_join (PDF_STORAGE_PATH (settings env)) (pdf_id +:+ ".pdf") in
      write_file env file_path file_content;;
      try_except
        (doc_response ← pi_submit_document env file_path;
         doc_id ← lift (getitem doc_response "doc_id");
         modify (with_doc_storage <[pdf_id := doc_id]>);;
         now ← datetime_utcnow env;
         modify (with_pdf_storage
                   <[pdf_id := {| filename := upload_filename file;
                                  file_path := file_path;
                                  doc_id := doc_id;
                                  upload_time := now |}]>);;
         mret {| up_pdf_id := pdf_id;
                 up_filename := upload_filename file;
                 up_status := "success" |})
        (fun e =>
           there ← os_path_exists file_path;
           (if there : bool then os_remove file_path else mret tt);;
           raise (HTTPException 500 (JStr ("Error processing PDF: " +:+ exn_str env e)))).

(** Lines 174 to 185 of [chat_with_pdf]: from the reply of the
    node-selection call to [relevant_content]. *)
Definition relevant_content (tree : list TreeNode) (tree_search_result : json) : result string :=
  let node_map := create_node_mapping tree in
  tree_search_result_json ← loads env tree_search_result;
  thinking ← getitem tree_search_result_json "thinking";
  print_wrapped env thinking;;
  ids ← getitem tree_search_result_json "node_list";
  ids ← iter ids;
  retrieved_nodes node_map ids;;
  reparsed ← loads env tree_search_result;
  node_list ← getitem reparsed "node_list";
  node_list ← iter node_list;
  texts ← node_texts node_map node_list;
  mret (join (nl +:+ nl) texts).

(** The body of the [try] block of [chat_with_pdf]. *)
Definition chat_try (chat_request : ChatRequest) (tree : list TreeNode)
    (session_id : string) : M ChatResponse :=
  let tree_without_text := remove_fields tree in
  let search_prompt := search_prompt (message chat_request) (json_dumps env tree_without_text) in
  tree_search_result ← telkomllm_call env search_prompt
                         (LLM_MAX_TOKENS (settings env)) (LLM_TEMPERATURE (settings env));
  relevant_content ← lift (relevant_content tree tree_search_result);
  let answer_prompt := answer_prompt (message chat_request) relevant_content in
  answer ← telkomllm_call env answer_prompt
             (LLM_MAX_TOKENS (settings env)) (LLM_TEMPERATURE (settings env));
  lift (print_wrapped env answer);;
  (if is_error answer then
     detail ← lift (getitem answer "error");
     raise (HTTPException 500 detail)
   else mret tt);;
  now ← datetime_utcnow env;
  match answer with
  | JStr text => mret {| response := text; chat_session_id := session_id; timestamp := now |}
  | _ => raise ValidationError
  end.

Definition chat_with_pdf (chat_request : ChatRequest) : M ChatResponse :=
  pdfs ← gets pdf_storage;
  match pdfs !! pdf_id chat_request with
  | None => raise (HTTPException 404 (JStr "PDF not found"))
  | Some pdf_info =>
      let doc_id := doc_id pdf_info in
      ready ← pi_is_retrieval_ready env doc_id;
      tree ← (if ready : bool then
                tree ← pi_get_tree env doc_id;
                lift (print_tree env tree);;
                mret tree
              else
                raise (HTTPException 400
                         (JStr "Document is still processing, please try again later.")));
      session_id ← match session_id chat_request with
                   | Some (String c s) => mret (String c s)
                   | _ => uuid4 env
                   end;
      try_except
        (chat_try chat_request tree session_id)
        (fun e =>
           raise (HTTPException 500 (JStr ("Error processing query: " +:+ exn_str env e))))
  end.

Definition delete_pdf (pdf_id : string) : M string :=
  pdfs ← gets pdf_storage;
  match pdfs !! pdf_id with
  | None => raise (HTTPException 404 (JStr "PDF not found"))
  | Some pdf_info =>
      let file_path := file_path pdf_info in
      there ← os_path_exists file_path;
      (if there : bool then os_remove file_path else mret tt);;
      modify (with_pdf_storage (delete pdf_id));;
      docs ← gets doc_storage;
      (if bool_decide (is_Some (docs !! pdf_id))
       then modify (with_doc_storage (delete pdf_id)) else mret tt);;
      mret ("PDF " +:+ pdf_id +:+ " deleted successfully")
  end.

End WithEnv.
End Routes.

(** * Vocabulary of the properties *)

Import Py PageIndex Config Sys LlmEngine Routes.
Open Scope list_scope.

(** ** The LLM call wrapper *)

(** The request body that [telkomllm_call] builds. *)
Definition llm_payload (prompt : string) (max_tokens : Z) (temperature : Q) : Payload :=
  {| model := "telkom-ai-instruct";
     messages := [("system", prompt)];
     max_tokens := max_tokens;
     temperature := temperature;
     stream := false |}.

(** The event that a POST of a body to the configured endpoint, with the
    configured token, leaves in the log. *)
Definition llm_post (env : Env) (payload : Payload) : event :=
  EvPost (URL_CUSTOM_LLM (settings env)) (TOKEN_CUSTOM_LLM (settings env)) payload.

(** The body for a prompt of the chat flow. *)
Definition chat_payload (env : Env) (prompt : string) : Payload :=
  llm_payload prompt (LLM_MAX_TOKENS (settings env)) (LLM_TEMPERATURE (settings env)).

(** The payloads of the POSTs of a log, oldest first. *)
Definition posts (l : list event) : list Payload :=
  omap (fun ev => match ev with EvPost _ _ p => Some p | _ => None end) l.

(** What one call to the endpoint returns when [n] calls were made before
    it. *)
Definition attempt (env : Env) (url token : string) (payload : Payload) (n : nat) : json :=
  match client_post env n url token payload with
  | Raise e => error_dict (exn_str env e)
  | Ok r =>
      if status_code r =? 200 then
        match response_content env r with
        | Ok c => c
        | Raise e => error_dict (exn_str env e)
        end
      else error_dict ("API call failed with status " +:+ pretty (status_code r))
  end.

(** The same at the configured endpoint. *)
Definition llm_attempt (env : Env) (payload : Payload) (n : nat) : json :=
  attempt env (URL_CUSTOM_LLM (settings env)) (TOKEN_CUSTOM_LLM (settings env)) payload n.

(** The prompt of the node-selection call of a chat request on a tree. *)
Definition selection_prompt (env : Env) (req : ChatRequest) (tree : list TreeNode) : string :=
  search_prompt (message req) (json_dumps env (remove_fields tree)).

(** The exception handler of [chat_with_pdf]. *)
Definition query_error (env : Env) (e : exn) : exn :=
  HTTPException 500 (JStr ("Error processing query: " +:+ exn_str env e)).

(** A chat request in world [w] reaches the [try] block with the tree
    [tree] and the session id [sid], in world [w1]: the PDF is known, the
    document service reports it ready and delivers the tree, and the tree
    is printed. *)
Definition chat_reaches_try (env : Env) (req : ChatRequest) (w : World)
    (tree : list TreeNode) (sid : string) (w1 : World) : Prop :=
  exists info,
    pdf_storage w !! pdf_id req = Some info
    /\ is_retrieval_ready env (length (log w)) (doc_id info) = Ok true
    /\ get_tree env (S (length (log w))) (doc_id info) = Ok tree
    /\ print_tree env tree = Ok tt
    /\ let w0 := with_event (EvTree (doc_id info)) (with_event (EvReady (doc_id info)) w) in
       match session_id req with
       | Some (String c s) => sid = String c s /\ w1 = w0
       | _ => uuid4 env w0 = (Ok sid, w1)
       end.

(** ** A small concrete world

    Two leaves, a canned endpoint and a table in place of the JSON parser;
    used to run the handlers on examples. *)

Module Demo.

Definition q (s : string) : string := dq +:+ s +:+ dq.

(** Backslash before every quote and backslash, as inside a JSON string. *)
Fixpoint escaped (s : string) : string :=
  match s with
  | EmptyString => EmptyString
  | String c rest =>
      if (Ascii.eqb c "034" || Ascii.eqb c "092")%bool
      then String "092" (String c (escaped rest))
      else String c (escaped rest)
  end.

Definition node_A : TreeNode :=
  {| node_id := "A"; title := "Cats"; summary := "On cats"; page_index := 1;
     text := Some "cat"; nodes := [] |}.

Definition node_B : TreeNode :=
  {| node_id := "B"; title := "Dogs"; summary := "On dogs"; page_index := 2;
     text := Some "dog"; nodes := [] |}.

Definition tree : list TreeNode := [node_A; node_B].

(** Replies of the model to the node-selection prompt. *)
Definition selection (ids : list string) : string :=
  "{" +:+ q "thinking" +:+ ": " +:+ q "looked at the summaries" +:+ ", "
  +:+ q "node_list" +:+ ": [" +:+ join ", " (q <$> ids) +:+ "]}".

Definition selection_json (ids : list string) : json :=
  JObj [("thinking", JStr "looked at the summaries"); ("node_list", JArr (JStr <$> ids))].

Definition reply_AB : string := selection ["A"; "B"].
Definition reply_AZ : string := selection ["A"; "Z"].
Definition reply_B : string := selection ["B"].
Definition reply_prose : string := "Sure! The relevant nodes are A and B.".
Definition reply_answer : string := "It is about a cat and a dog.".

(** The body of a 200 response that carries [content]. *)
Definition body_of (content : string) : string :=
  "{" +:+ q "choices" +:+ ": [{" +:+ q "message" +:+ ": {" +:+ q "content" +:+ ": "
  +:+ q (escaped content) +:+ "}}]}".

Definition body_json (content : string) : json :=
  JObj [("choices", JArr [JObj [("message", JObj [("content", JStr content)])]])].

Definition ok_response (content : string) : result Response :=
  Ok {| status_code := 200; body := body_of content |}.

Definition parse_table : list (string * json) :=
  [ (reply_AB, selection_json ["A"; "B"]);
    (reply_AZ, selection_json ["A"; "Z"]);
    (reply_B, selection_json ["B"]);
    (body_of reply_AB, body_json reply_AB);
    (body_of reply_AZ, body_json reply_AZ);
    (body_of reply_B, body_json reply_B);
    (body_of reply_prose, body_json reply_prose);
    (body_of reply_answer, body_json reply_answer) ].

Definition table_loads (s : string) : option json :=
  snd <$> List.find (fun entry => String.eqb (fst entry) s) parse_table.

Definition show_exn (e : exn) : string :=
  match e with
  | HTTPException _ (JStr d) => d
  | HTTPException _ _ => "HTTPException"
  | KeyError (JStr k) => "'" +:+ k +:+ "'"
  | KeyError _ => "KeyError"
  | IndexError => "list index out of range"
  | TypeError => "TypeError"
  | JSONDecodeError => "Expecting value: line 1 column 1 (char 0)"
  | ValidationError => "1 validation error for ChatResponse"
  | OSError => "OSError"
  | External what => what
  end.

Definition small : Config :=
  {| PDF_STORAGE_PATH := "./uploaded_pdfs";
     MAX_FILE_SIZE := 4;
     LLM_TEMPERATURE := 0%Q;
     LLM_MAX_TOKENS := 3000;
     PAGEINDEX_API_KEY := "key";
     URL_CUSTOM_LLM := "https://llm.example/v1/chat";
     TOKEN_CUSTOM_LLM := "token" |}.

(** The endpoint answers by the number of calls made before; the document
    service always answers the same. *)
Definition env (endpoint : nat -> result Response) (ready : bool)
    (submitted : result json) (written : write_outcome) : Env :=
  {| settings := small;
     urandom := fun n => N.of_nat n;
     utcnow := fun n => Z.of_nat n;
     disk_write := fun _ _ => written;
     client_post := fun n _ _ _ => endpoint n;
     submit_document := fun _ _ _ => submitted;
     is_retrieval_ready := fun _ _ => Ok ready;
     get_tree := fun _ _ => Ok tree;
     print_tree := fun _ => Ok tt;
     print_wrapped := fun _ => Ok tt;
     json_loads := table_loads;
     json_dumps := fun t => "[" +:+ join ", " (q <$> (node_id <$> all_nodes t)) +:+ "]";
     exn_str := show_exn |}.

(** An endpoint that plays a script and then stays down. *)
Definition scripted (script : list (result Response)) (n : nat) : result Response :=
  nth n script (Raise (External "connection refused")).

Definition info_p1 : PdfInfo :=
  {| filename := "pets.pdf"; file_path := "./uploaded_pdfs/p1.pdf";
     doc_id := JStr "doc-1"; upload_time := 0 |}.

(** One PDF is stored, nothing was called yet. *)
Definition world_p1 : World :=
  {| pdf_storage := {[ "p1" := info_p1 ]};
     doc_storage := {[ "p1" := JStr "doc-1" ]};
     disk := {[ "./uploaded_pdfs/p1.pdf" := [] ]};
     log := [];
     draws := 0 |}.

Definition ask : ChatRequest :=
  {| message := "What is it about?"; pdf_id := "p1"; session_id := Some "s1" |}.

End Demo.

(** Worlds and endpoints of the examples. *)
Module Scenes.
Import Demo.

(** [world_p1] once the chat request [ask] has reached the [try] block. *)
Definition at_try : World :=
  with_event (EvTree (JStr "doc-1")) (with_event (EvReady (JStr "doc-1")) world_p1).

(** The endpoint is called third and fourth in a chat on [world_p1]. *)
Definition replies (selection_reply : string) : Env :=
  env (scripted [Raise (External "unused"); Raise (External "unused");
                 ok_response selection_reply; ok_response reply_answer])
      true (Ok JNull) Written.

Definition not_ready : Env := env (scripted []) false (Ok JNull) Written.

(** The endpoint is overloaded at the first call and answers the second. *)
Definition flaky : Env :=
  env (scripted [Ok {| status_code := 503; body := "Service Unavailable" |};
                 ok_response reply_answer])
      true (Ok JNull) Written.

(** The world when the node-selection call of [ask] has returned. *)
Definition after_selection (e : Env) : World :=
  snd (telkomllm_call e (selection_prompt e ask tree)
         (LLM_MAX_TOKENS (settings e)) (LLM_TEMPERATURE (settings e)) at_try).

End Scenes.

(** ** Vocabulary of the upload and delete handlers *)

(** The id that the next call of [uuid4] returns. *)
Definition fresh_id (env : Env) (w : World) : string :=
  uuid_str (uuid4_int (urandom env (draws w))).

(** The path under which an upload with that id is stored. *)
Definition storage_file (env : Env) (id : string) : string :=
  os_path_join (PDF_STORAGE_PATH (settings env)) (id +:+ ".pdf").

(** The upload directory as a prefix: with one separator at its end unless
    it is empty or has one already. *)
Definition storage_dir (env : Env) : string :=
  let d := PDF_STORAGE_PATH (settings env) in
  if (String.eqb d "" || endswith d "/")%bool then d else d +:+ "/".

(** The spellings of the extension, and the names that end in one. *)
Definition pdf_extensions : list string :=
  [".pdf"; ".pdF"; ".pDf"; ".pDF"; ".Pdf"; ".PdF"; ".PDf"; ".PDF"].

Definition ends_in_pdf (name : string) : Prop :=
  exists stem ext, ext ∈ pdf_extensions /\ name = stem +:+ ext.

(** The upload passes the two checks at the top of [upload_pdf]. *)
Definition valid_upload (env : Env) (file : UploadFile) : bool :=
  (endswith (lower (upload_filename file)) ".pdf"
   && negb (Z.of_nat (length (upload_content file)) >? MAX_FILE_SIZE (settings env)))%bool.

(** What the document service makes of the stored upload: the [doc_id] of
    its response, or the exception of the [try] block. *)
Definition processed (env : Env) (w : World) (path : string) (data : list Byte.byte) : result json :=
  doc_response ← submit_document env (length (log w)) path (Some data);
  getitem doc_response "doc_id".

(** The two dicts hold the same keys and agree on the document id. *)
Definition stores_agree (w : World) : Prop :=
  dom (pdf_storage w) = dom (doc_storage w)
  /\ forall id info, pdf_storage w !! id = Some info ->
                     doc_storage w !! id = Some (doc_id info).

(** The requests of the API and the world after one of them. *)
Inductive request : Type :=
| Upload (file : UploadFile)
| Chat (chat_request : ChatRequest)
| Delete (pdf_id : string).

Definition handle (env : Env) (rq : request) (w : World) : bool * World :=
  match rq with
  | Upload file => let '(r, w') := upload_pdf env file w in (is_ok r, w')
  | Chat chat_request => let '(r, w') := chat_with_pdf env chat_request w in (is_ok r, w')
  | Delete pdf_id => let '(r, w') := delete_pdf pdf_id w in (is_ok r, w')
  end.

(** The world after a sequence of requests served one after the other. A
    handler only yields to another one at an [await]; [upload_pdf] awaits
    before it reads or writes any state, [delete_pdf] never does and
    [chat_with_pdf] writes to neither dict. *)
Definition serve (env : Env) (rqs : list request) (w : World) : World :=
  foldl (fun w rq => snd (handle env rq w)) w rqs.

(** The second world has the dicts and the disk of the first. *)
Definition same_stores (w w' : World) : Prop :=
  pdf_storage w' = pdf_storage w /\ doc_storage w' = doc_storage w /\ disk w' = disk w.

(** A computation that never changes them. *)
Definition keeps_stores {A} (m : M A) : Prop := forall w, same_stores w (snd (m w)).

(** Uploads of the examples. *)
Module Uploads.
Import Demo.

Definition report : UploadFile :=
  {| upload_filename := "Report.PDF"; upload_content := [Byte.x25; Byte.x50] |}.

Definition notes : UploadFile :=
  {| upload_filename := "notes.txt"; upload_content := [Byte.x25; Byte.x50] |}.

Definition large : UploadFile :=
  {| upload_filename := "large.pdf";
     upload_content := [Byte.x25; Byte.x50; Byte.x44; Byte.x46; Byte.x2d] |}.

(** The document service accepts the file, or is down. *)
Definition accepting : Env :=
  env (scripted []) true (Ok (JObj [("doc_id", JStr "doc-9")])) Written.

Definition failing : Env :=
  env (scripted []) true (Raise (External "503 Service Unavailable")) Written.

(** The id drawn first, and the file it names. *)
Definition first_id : string := "00000000-0000-4000-8000-000000000000".
Definition first_path : string := "./uploaded_pdfs/00000000-0000-4000-8000-000000000000.pdf".

End Uploads.

(** ** Occurrence in a tree *)

(** A node occurs in a tree when it is one of its roots or a child of a
    node that occurs in it. *)
Inductive occurs_in (tree : list TreeNode) : TreeNode -> Prop :=
| occurs_root n : n ∈ tree -> occurs_in tree n
| occurs_child p c : occurs_in tree p -> c ∈ nodes p -> occurs_in tree c.

(** A tree of depth three for the examples: a root over a leaf and a
    section, the section over one more leaf. *)
Module Nested.
Import Demo.

Definition leaf_C : TreeNode :=
  {| node_id := "C"; title := "Kennels"; summary := "Where dogs sleep"; page_index := 3;
     text := Some "kennel"; nodes := [] |}.

Definition section_B : TreeNode :=
  {| node_id := "B"; title := "Dogs"; summary := "On dogs"; page_index := 2;
     text := Some "dog"; nodes := [leaf_C] |}.

Definition root_R : TreeNode :=
  {| node_id := "R"; title := "Pets"; summary := "On pets"; page_index := 1;
     text := Some "pets"; nodes := [node_A; section_B] |}.

Definition tree : list TreeNode := [root_R].

Definition reply_C : string := selection ["C"].
Definition reply_BC : string := selection ["B"; "C"].

(** The reply of the spec's example: the id list alone. *)
Definition reply_ids_only : string :=
  "{" +:+ q "node_list" +:+ ": [" +:+ q "A" +:+ ", " +:+ q "B" +:+ "]}".

Definition nested_table : list (string * json) :=
  [ (reply_C, selection_json ["C"]);
    (reply_BC, selection_json ["B"; "C"]);
    (reply_ids_only, JObj [("node_list", JArr [JStr "A"; JStr "B"])]);
    (body_of reply_C, body_json reply_C);
    (body_of reply_BC, body_json reply_BC);
    (body_of reply_ids_only, body_json reply_ids_only);
    (body_of reply_answer, body_json reply_answer) ].

Definition nested_loads (s : string) : option json :=
  snd <$> List.find (fun entry => String.eqb (fst entry) s) nested_table.

(** The helper that prints a text: it wants a string. *)
Definition print_text (v : json) : result unit :=
  match v with
  | JStr _ => Ok tt
  | _ => Raise (External "'dict' object has no attribute 'splitlines'")
  end.

(** The document service delivers [served]; the endpoint answers the
    selection with [reply] and then the answer call. *)
Definition answering (served : list TreeNode) (reply : string) : Env :=
  {| settings := small;
     urandom := fun n => N.of_nat n;
     utcnow := fun n => Z.of_nat n;
     disk_write := fun _ _ => Written;
     client_post := fun n _ _ _ =>
       scripted [Raise (External "unused"); Raise (External "unused");
                 ok_response reply; ok_response reply_answer] n;
     submit_document := fun _ _ _ => Ok (JObj [("doc_id", JStr "doc-9")]);
     is_retrieval_ready := fun _ _ => Ok true;
     get_tree := fun _ _ => Ok served;
     print_tree := fun _ => Ok tt;
     print_wrapped := print_text;
     json_loads := nested_loads;
     json_dumps := fun t => "[" +:+ join ", " (q <$> (node_id <$> all_nodes t)) +:+ "]";
     exn_str := show_exn |}.

End Nested.

(** ** Vocabulary of the further properties *)

(** A computation that only ever appends to the log of calls. *)
Definition grows_log {A} (m : M A) : Prop :=
  forall w, exists rest, log (snd (m w)) = log w ++ rest.

(** Every record is filed under an id that [uuid4] hands out, points
    at the file of that id in the upload directory and keeps a file name
    that passed the extension check. *)
Definition records_in_storage (env : Env) (w : World) : Prop :=
  forall id info,
    pdf_storage w !! id = Some info ->
    (exists k, id = uuid_str (uuid4_int (urandom env k)))
    /\ file_path info = storage_file env id
    /\ ends_in_pdf (filename info).

(** Further replies and endpoints for the examples. *)
Module More.
Import Demo Scenes Uploads.

Definition reply_none : string := selection [].

(** A reply without its [thinking] entry, and one that lists page numbers
    in place of ids. *)
Definition reply_bare : string := "{" +:+ q "node_list" +:+ ": [" +:+ q "A" +:+ "]}".

Definition reply_numbers : string :=
  "{" +:+ q "thinking" +:+ ": " +:+ q "pages one and two" +:+ ", "
  +:+ q "node_list" +:+ ": [1, 2]}".

Definition more_table : list (string * json) :=
  [ (reply_none, selection_json []);
    (reply_bare, JObj [("node_list", JArr [JStr "A"])]);
    (reply_numbers, JObj [("thinking", JStr "pages one and two");
                          ("node_list", JArr [JNum 1; JNum 2])]);
    (body_of reply_none, body_json reply_none);
    (body_of reply_bare, body_json reply_bare);
    (body_of reply_numbers, body_json reply_numbers) ].

Definition more_loads (s : string) : option json :=
  match table_loads s with
  | Some j => Some j
  | None => snd <$> List.find (fun entry => String.eqb (fst entry) s) more_table
  end.

(** [Demo.env] with the larger table and a print helper that wants a
    string; the document is ready. *)
Definition chatting (endpoint : nat -> result Response) : Env :=
  {| settings := small;
     urandom := fun n => N.of_nat n;
     utcnow := fun n => Z.of_nat n;
     disk_write := fun _ _ => Written;
     client_post := fun n _ _ _ => endpoint n;
     submit_document := fun _ _ _ => Ok (JObj [("doc_id", JStr "doc-9")]);
     is_retrieval_ready := fun _ _ => Ok true;
     get_tree := fun _ _ => Ok tree;
     print_tree := fun _ => Ok tt;
     print_wrapped := Nested.print_text;
     json_loads := more_loads;
     json_dumps := fun t => "[" +:+ join ", " (q <$> (node_id <$> all_nodes t)) +:+ "]";
     exn_str := show_exn |}.

(** The endpoint answers the selection with [reply] and then the answer
    call; answers the selection only; or is down. *)
Definition answering (reply : string) : Env :=
  chatting (scripted [Raise (External "unused"); Raise (External "unused");
                      ok_response reply; ok_response reply_answer]).

Definition selecting_only : Env :=
  chatting (scripted [Raise (External "unused"); Raise (External "unused");
                      ok_response reply_AB]).

Definition down : Env := chatting (scripted []).

(** The document service takes the upload and is still busy with it. *)
Definition pending : Env :=
  env (scripted []) false (Ok (JObj [("doc_id", JStr "doc-9")])) Written.

(** A file of exactly [MAX_FILE_SIZE small] bytes. *)
Definition full : UploadFile :=
  {| upload_filename := "full.pdf";
     upload_content := [Byte.x25; Byte.x50; Byte.x44; Byte.x46] |}.

(** The world when the node-selection call of [ask] has returned, and
    when the answer call has. *)
Definition selected (e : Env) : World :=
  snd (telkomllm_call e (selection_prompt e ask tree)
         (LLM_MAX_TOKENS (settings e)) (LLM_TEMPERATURE (settings e)) at_try).

Definition answered (e : Env) (ctx : string) : World :=
  snd (telkomllm_call e (answer_prompt (message ask) ctx)
         (LLM_MAX_TOKENS (settings e)) (LLM_TEMPERATURE (settings e)) (selected e)).

(** A request for an id that was never stored. *)
Definition ask_unknown : ChatRequest :=
  {| message := "What is it about?"; pdf_id := "p2"; session_id := None |}.

End More.


(** * Properties *)

(** ** The LLM call wrapper *)

Lemma is_error_error_dict msg : is_error (error_dict msg) = true.
Proof. reflexivity. Qed.

Lemma make_async_api_call_run env url token payload w :
  make_async_api_call env url token payload w =
  (Ok (attempt env url token payload (length (log w))),
   with_event (EvPost url token payload) w).
Proof.
  unfold make_async_api_call, attempt, try_except, post, mbind, M_bind, bind, lift, mret, M_ret, ret.
  destruct (client_post env _ url token payload) as [r|e]; [|done].
  destruct (status_code r =? 200); [|done].
  by destruct (response_content env r).
Qed.

Lemma telkomllm_call_run env prompt max_tokens temperature w :
  let payload := llm_payload prompt max_tokens temperature in
  let ev := llm_post env payload in
  telkomllm_call env prompt max_tokens temperature w =
  if is_error (llm_attempt env payload (length (log w))) then
    (Ok (llm_attempt env payload (S (length (log w)))), with_event ev (with_event ev w))
  else (Ok (llm_attempt env payload (length (log w))), with_event ev w).
Proof.
  intros payload ev. subst ev.
  unfold telkomllm_call, URL_CUSTOM_LLM_APILOGY, TOKEN_CUSTOM_LLM_APILOGY.
  fold (llm_payload prompt max_tokens temperature). fold payload.
  unfold mbind, M_bind, bind at 1.
  rewrite make_async_api_call_run. fold (llm_attempt env payload (length (log w))).
  destruct (is_error _); [|done].
  rewrite make_async_api_call_run. unfold llm_attempt, llm_post.
  cbn [log with_event]. rewrite length_app. cbn [length].
  by rewrite Nat.add_1_r.
Qed.

(** The wrapper always returns a value, after one or two POSTs of the same
    body, and touches nothing but the log. *)
Lemma telkomllm_call_returns env prompt max_tokens temperature w :
  let ev := llm_post env (llm_payload prompt max_tokens temperature) in
  exists out w',
    telkomllm_call env prompt max_tokens temperature w = (Ok out, w')
    /\ pdf_storage w' = pdf_storage w /\ doc_storage w' = doc_storage w
    /\ disk w' = disk w /\ draws w' = draws w
    /\ (log w' = log w ++ [ev] \/ log w' = log w ++ [ev; ev]).
Proof.
  rewrite telkomllm_call_run. cbn zeta.
  destruct (is_error _); eexists _, _; (split; [done|]); repeat split.
  - right. cbn. by rewrite <- app_assoc.
  - by left.
Qed.

(** C8. A call to the endpoint never raises: it returns a value, and when
    the transport fails or the status is not 200 that value is the error
    indicator [{"error": ...}]. When the first attempt of [telkomllm_call]
    returns an error indicator, exactly one more POST is made, to the same
    URL with the same token and body, and its result is returned; otherwise
    the first result is returned after a single POST. *)
Theorem telkomllm_call_error_indicator_single_retry
    (env : Env) (prompt : string) (max_tokens : Z) (temperature : Q) (w : World) :
  let url := URL_CUSTOM_LLM (settings env) in
  let token := TOKEN_CUSTOM_LLM (settings env) in
  let payload := llm_payload prompt max_tokens temperature in
  (forall u t p w0, exists v,
      make_async_api_call env u t p w0 = (Ok v, with_event (EvPost u t p) w0)
      /\ (forall e, client_post env (length (log w0)) u t p = Raise e ->
                    v = error_dict (exn_str env e) /\ is_error v = true)
      /\ (forall r, client_post env (length (log w0)) u t p = Ok r ->
                    status_code r <> 200 ->
                    v = error_dict ("API call failed with status " +:+ pretty (status_code r))
                    /\ is_error v = true))
  /\ exists first w1,
      make_async_api_call env url token payload w = (Ok first, w1)
      /\ log w1 = log w ++ [EvPost url token payload]
      /\ (is_error first = true ->
          exists second w2,
            make_async_api_call env url token payload w1 = (Ok second, w2)
            /\ telkomllm_call env prompt max_tokens temperature w = (Ok second, w2)
            /\ log w2 = log w ++ [EvPost url token payload; EvPost url token payload])
      /\ (is_error first = false ->
          telkomllm_call env prompt max_tokens temperature w = (Ok first, w1)).
Proof.
  intros url token payload. split.
  - intros u t p w0. eexists. split; [apply make_async_api_call_run|].
    unfold attempt. split.
    + intros e ->. done.
    + intros r -> Hne. apply Z.eqb_neq in Hne. rewrite Hne. done.
  - eexists _, _. split; [apply make_async_api_call_run|].
    split; [done|].
    pose proof (telkomllm_call_run env prompt max_tokens temperature w) as Hrun.
    cbn zeta in Hrun. fold payload in Hrun. unfold llm_attempt in Hrun.
    fold url token in Hrun.
    split.
    + intros Herr. rewrite Herr in Hrun.
      eexists _, _. split; [apply make_async_api_call_run|].
      split.
      * rewrite Hrun. f_equal. f_equal. cbn [log with_event].
        rewrite length_app. cbn [length]. by rewrite Nat.add_1_r.
      * cbn [log with_event]. by rewrite <- app_assoc.
    + intros Herr. rewrite Herr in Hrun. exact Hrun.
Qed.

(** ** The chat flow *)

Lemma chat_with_pdf_try env req w tree sid w1 :
  chat_reaches_try env req w tree sid w1 ->
  chat_with_pdf env req w =
  try_except (chat_try env req tree sid) (fun e => raise (query_error env e)) w1.
Proof.
  intros (info & Hpdf & Hready & Htree & Hprint & Hsid).
  unfold chat_with_pdf.
  unfold mbind at 1. unfold M_bind, bind at 1, gets at 1. rewrite Hpdf.
  unfold mbind at 1. unfold M_bind, bind at 1, pi_is_retrieval_ready at 1. rewrite Hready.
  unfold mbind at 1. unfold M_bind, bind at 1.
  unfold mbind at 1. unfold M_bind, bind at 1, pi_get_tree at 1.
  cbn [log with_event]. rewrite length_app, Nat.add_1_r. cbn [length]. rewrite Htree.
  unfold mbind at 1. unfold M_bind, bind at 1, lift at 1. rewrite Hprint.
  unfold mret at 1. unfold M_ret, ret at 1.
  cbn zeta in Hsid.
  unfold mbind at 1. unfold M_bind, bind at 1.
  destruct (session_id req) as [[|c s]|].
  - rewrite Hsid. done.
  - destruct Hsid as [-> ->]. done.
  - rewrite Hsid. done.
Qed.

Lemma chat_try_selection_fails env req tree sid w out w2 e :
  telkomllm_call env (selection_prompt env req tree)
    (LLM_MAX_TOKENS (settings env)) (LLM_TEMPERATURE (settings env)) w = (Ok out, w2) ->
  relevant_content env tree out = Raise e ->
  chat_try env req tree sid w = (Raise e, w2).
Proof.
  intros Hsel Hctx. unfold chat_try. cbn zeta.
  unfold mbind at 1. unfold M_bind, bind at 1.
  unfold selection_prompt in Hsel. rewrite Hsel.
  unfold mbind at 1. unfold M_bind, bind at 1, lift at 1.
  by rewrite Hctx.
Qed.

Lemma chat_try_selection_succeeds env req tree sid w out w2 ctx :
  telkomllm_call env (selection_prompt env req tree)
    (LLM_MAX_TOKENS (settings env)) (LLM_TEMPERATURE (settings env)) w = (Ok out, w2) ->
  relevant_content env tree out = Ok ctx ->
  exists r w3 rest,
    chat_try env req tree sid w = (r, w3)
    /\ log w3 = log w2 ++ llm_post env (chat_payload env (answer_prompt (message req) ctx)) :: rest.
Proof.
  intros Hsel Hctx. unfold chat_try. cbn zeta.
  unfold mbind at 1. unfold M_bind, bind at 1.
  unfold selection_prompt in Hsel. rewrite Hsel.
  unfold mbind at 1. unfold M_bind, bind at 1, lift at 1.
  rewrite Hctx.
  unfold mbind at 1. unfold M_bind, bind at 1.
  destruct (telkomllm_call_returns env (answer_prompt (message req) ctx)
              (LLM_MAX_TOKENS (settings env)) (LLM_TEMPERATURE (settings env)) w2)
    as (answer & w3 & Hans & _ & _ & _ & _ & Hlog).
  rewrite Hans.
  assert (exists rest, log w3 = log w2 ++
            llm_post env (chat_payload env (answer_prompt (message req) ctx)) :: rest)
    as [rest Hrest].
  { destruct Hlog as [-> | ->]; eexists; done. }
  unfold mbind, M_bind, bind, lift, raise, mret, M_ret, ret, datetime_utcnow, gets.
  destruct (print_wrapped env answer); [|by eexists _, _, _].
  destruct (is_error answer).
  - destruct (getitem answer "error"); by eexists _, _, _.
  - destruct answer; by eexists _, _, _.
Qed.

Lemma posts_app l1 l2 : posts (l1 ++ l2) = posts l1 ++ posts l2.
Proof. unfold posts. apply omap_app. Qed.

(** Reaching the [try] block costs two calls to the document service and
    no call to the LLM endpoint. *)
Lemma chat_reaches_try_posts env req w tree sid w1 :
  chat_reaches_try env req w tree sid w1 ->
  posts (log w1) = posts (log w)
  /\ pdf_storage w1 = pdf_storage w /\ doc_storage w1 = doc_storage w /\ disk w1 = disk w.
Proof.
  intros (info & _ & _ & _ & _ & Hsid). cbn zeta in Hsid.
  assert (forall w0 : World,
             (match session_id req with
              | Some (String c s) => sid = String c s /\ w1 = w0
              | _ => uuid4 env w0 = (Ok sid, w1)
              end) ->
             log w1 = log w0 /\ pdf_storage w1 = pdf_storage w0
             /\ doc_storage w1 = doc_storage w0 /\ disk w1 = disk w0) as Hdraw.
  { intros w0 H. unfold uuid4 in H.
    destruct (session_id req) as [[|c s]|];
      [injection H as _ <- | destruct H as [_ ->] | injection H as _ <-]; done. }
  destruct (Hdraw _ Hsid) as (-> & -> & -> & ->). cbn [log with_event pdf_storage].
  rewrite !posts_app. cbn. by rewrite !app_nil_r.
Qed.

(** The two prompts of the flow never coincide. *)
Lemma search_prompt_not_answer_prompt question dumped question' context :
  search_prompt question dumped <> answer_prompt question' context.
Proof. unfold search_prompt, answer_prompt, nl. cbn. discriminate. Qed.

Lemma chat_payload_inj env p1 p2 : chat_payload env p1 = chat_payload env p2 -> p1 = p2.
Proof. unfold chat_payload, llm_payload. by intros [= ->]. Qed.

(** What a failure between the two LLM calls amounts to: the request ends
    with the 500 of the handler in the very world in which the selection
    call returned, so that every POST of the request carried the
    node-selection prompt. *)
Lemma chat_fails_before_synthesis env req w tree sid w1 out w2 e :
  chat_reaches_try env req w tree sid w1 ->
  telkomllm_call env (selection_prompt env req tree)
    (LLM_MAX_TOKENS (settings env)) (LLM_TEMPERATURE (settings env)) w1 = (Ok out, w2) ->
  relevant_content env tree out = Raise e ->
  let sel := chat_payload env (selection_prompt env req tree) in
  chat_with_pdf env req w = (Raise (query_error env e), w2)
  /\ (posts (log w2) = posts (log w) ++ [sel] \/ posts (log w2) = posts (log w) ++ [sel; sel])
  /\ (forall first w',
         make_async_api_call env (URL_CUSTOM_LLM (settings env))
           (TOKEN_CUSTOM_LLM (settings env)) sel w1 = (Ok first, w') ->
         is_error first = false ->
         out = first /\ posts (log w2) = posts (log w) ++ [sel])
  /\ (forall ctx,
         chat_payload env (answer_prompt (message req) ctx)
           ∉ drop (length (posts (log w))) (posts (log w2))).
Proof.
  intros Hreach Hsel Hctx sel.
  destruct (chat_reaches_try_posts _ _ _ _ _ _ Hreach) as (Hposts & _).
  assert (Hone : posts (log (with_event (llm_post env sel) w1)) = posts (log w) ++ [sel]).
  { cbn [log with_event]. by rewrite posts_app, Hposts. }
  assert (Htwo : posts (log (with_event (llm_post env sel) (with_event (llm_post env sel) w1)))
                 = posts (log w) ++ [sel; sel]).
  { cbn [log with_event]. rewrite !posts_app, Hposts, <- app_assoc. done. }
  pose proof (telkomllm_call_run env (selection_prompt env req tree)
                (LLM_MAX_TOKENS (settings env)) (LLM_TEMPERATURE (settings env)) w1) as Hrun.
  cbn zeta in Hrun. rewrite Hsel in Hrun. fold (chat_payload env (selection_prompt env req tree)) in Hrun.
  fold sel in Hrun.
  assert (Hcount : posts (log w2) = posts (log w) ++ [sel] \/ posts (log w2) = posts (log w) ++ [sel; sel]).
  { destruct (is_error _); injection Hrun as _ ->; [right|left]; done. }
  split; [|split; [exact Hcount|split]].
  - rewrite (chat_with_pdf_try _ _ _ _ _ _ Hreach). unfold try_except.
    by rewrite (chat_try_selection_fails _ _ _ _ _ _ _ _ Hsel Hctx).
  - intros first w' Hfirst Herr. rewrite make_async_api_call_run in Hfirst.
    injection Hfirst as <- _. unfold llm_attempt in Hrun. rewrite Herr in Hrun.
    injection Hrun as -> ->. done.
  - intros ctx Hin.
    assert (chat_payload env (answer_prompt (message req) ctx) = sel) as Heq.
    { destruct Hcount as [Hc | Hc]; rewrite Hc, drop_app_length in Hin;
        repeat (apply elem_of_cons in Hin as [Hin | Hin]; [done|]);
        by apply elem_of_nil in Hin. }
    apply chat_payload_inj in Heq. symmetry in Heq.
    by apply search_prompt_not_answer_prompt in Heq.
Qed.

(** ** The document tree and its index *)

(** Induction over a tree with the hypothesis for every child. *)
Lemma TreeNode_nested_ind (P : TreeNode -> Prop) :
  (forall n, Forall P (nodes n) -> P n) -> forall n, P n.
Proof.
  intros step. fix IH 1. intros [id t s p tx ch]. apply step. cbn.
  induction ch as [|c ch IHch]; constructor; [apply IH | exact IHch].
Qed.





Section Index.
Implicit Types (l : list TreeNode) (m : gmap string TreeNode).

Let add m (n : TreeNode) := <[node_id n := n]> m.

Lemma index_lookup_absent l m id :
  id ∉ node_id <$> l -> foldl add m l !! id = m !! id.
Proof.
  revert m. induction l as [|x l IH]; intros m Hid; [done|].
  cbn in *. apply not_elem_of_cons in Hid as [Hne Hid].
  rewrite (IH _ Hid). unfold add. by rewrite lookup_insert_ne.
Qed.

Lemma index_lookup_present l m id :
  id ∈ node_id <$> l ->
  exists n, n ∈ l /\ node_id n = id /\ foldl add m l !! id = Some n.
Proof.
  revert m. induction l as [|x l IH]; intros m Hid; cbn in *.
  - by apply elem_of_nil in Hid.
  - destruct (decide (id ∈ node_id <$> l)) as [Hin | Hout].
    + destruct (IH (add m x) Hin) as (n & Hn & Hnid & Hlook).
      exists n. split; [by apply elem_of_cons; right|done].
    + apply elem_of_cons in Hid as [-> | Hid]; [|done].
      exists x. split; [by apply elem_of_cons; left|]. split; [done|].
      rewrite (index_lookup_absent _ _ _ Hout). unfold add.
      by rewrite lookup_insert_eq.
Qed.

Lemma index_lookup_unique l m n :
  NoDup (node_id <$> l) -> n ∈ l -> foldl add m l !! node_id n = Some n.
Proof.
  revert m. induction l as [|x l IH]; intros m Hnd Hn; cbn in *.
  - by apply elem_of_nil in Hn.
  - apply NoDup_cons in Hnd as [Hx Hnd].
    apply elem_of_cons in Hn as [-> | Hn]; [|by apply IH].
    rewrite (index_lookup_absent _ _ _ Hx). unfold add.
    by rewrite lookup_insert_eq.
Qed.
End Index.

Lemma create_node_mapping_absent tree id :
  create_node_mapping tree !! id = None <-> id ∉ node_id <$> all_nodes tree.
Proof.
  unfold create_node_mapping. split.
  - intros Hnone Hin.
    destruct (index_lookup_present (all_nodes tree) ∅ id Hin) as (n & _ & _ & Hlook).
    congruence.
  - intros Hout. by rewrite index_lookup_absent.
Qed.

Lemma create_node_mapping_present tree id :
  id ∈ node_id <$> all_nodes tree ->
  exists n, n ∈ all_nodes tree /\ node_id n = id /\ create_node_mapping tree !! id = Some n.
Proof. apply index_lookup_present. Qed.

Lemma create_node_mapping_unique tree n :
  NoDup (node_id <$> all_nodes tree) -> n ∈ all_nodes tree ->
  create_node_mapping tree !! node_id n = Some n.
Proof. apply index_lookup_unique. Qed.

(** ** From the selection reply to the context *)

Lemma retrieved_nodes_first node_map pre k suf e :
  Forall (fun k => is_ok (node_map_getitem node_map k) = true) pre ->
  node_map_getitem node_map k = Raise e ->
  retrieved_nodes node_map (pre ++ k :: suf) = Raise e.
Proof.
  intros Hpre Hk. induction Hpre as [|x pre Hx _ IH]; cbn.
  - by rewrite Hk.
  - by destruct (node_map_getitem node_map x).
Qed.

Lemma retrieved_nodes_raise node_map items k e0 :
  k ∈ items -> node_map_getitem node_map k = Raise e0 ->
  exists e, retrieved_nodes node_map items = Raise e.
Proof.
  intros Hin Hk. induction items as [|x items IH]; [by apply elem_of_nil in Hin|].
  cbn. destruct (node_map_getitem node_map x) as [n|e] eqn:Hx; [|by eexists].
  apply elem_of_cons in Hin as [-> | Hin]; [congruence | by apply IH].
Qed.

Lemma node_texts_resolved node_map ids resolved texts :
  Forall2 (fun id n => node_map !! id = Some n) ids resolved ->
  Forall2 (fun n t => text n = Some t) resolved texts ->
  retrieved_nodes node_map (JStr <$> ids) = Ok tt
  /\ node_texts node_map (JStr <$> ids) = Ok texts.
Proof.
  intros Hres. revert texts.
  induction Hres as [|id n ids resolved Hid _ IH]; intros texts Htexts.
  - by apply Forall2_nil_inv_l in Htexts as ->.
  - apply Forall2_cons_inv_l in Htexts as (t & texts' & Ht & Htexts & ->).
    destruct (IH _ Htexts) as [IH1 IH2]. cbn.
    unfold node_text. by rewrite Hid, Ht, IH1, IH2.
Qed.

(** A reply that [json.loads] rejects ends the retrieval. *)
Lemma relevant_content_unparseable env tree out :
  (forall j, loads env out <> Ok j) ->
  exists e, relevant_content env tree out = Raise e
            /\ (e = JSONDecodeError \/ e = TypeError).
Proof.
  intros Hbad. unfold relevant_content. cbn zeta.
  destruct (loads env out) as [j|e] eqn:Hloads; [by destruct (Hbad j)|].
  exists e. split; [done|].
  unfold loads in Hloads. destruct out; try (injection Hloads as <-; by right).
  destruct (json_loads env s); [done|]. injection Hloads as <-. by left.
Qed.

(** A reply that names an id which the index lacks ends the retrieval. *)
Lemma relevant_content_absent env tree out j l items id :
  loads env out = Ok j ->
  getitem j "node_list" = Ok l ->
  iter l = Ok items ->
  JStr id ∈ items ->
  create_node_mapping tree !! id = None ->
  exists e,
    relevant_content env tree out = Raise e
    /\ (forall th pre suf,
           getitem j "thinking" = Ok th ->
           print_wrapped env th = Ok tt ->
           items = pre ++ JStr id :: suf ->
           Forall (fun k => is_ok (node_map_getitem (create_node_mapping tree) k) = true) pre ->
           e = KeyError (JStr id)).
Proof.
  intros Hloads Hlist Hiter Hin Habsent.
  assert (Hk : node_map_getitem (create_node_mapping tree) (JStr id) = Raise (KeyError (JStr id))).
  { cbn. by rewrite Habsent. }
  destruct (retrieved_nodes_raise _ _ _ _ Hin Hk) as [e0 He0].
  unfold relevant_content. cbn zeta. rewrite Hloads. cbn.
  destruct (getitem j "thinking") as [th|e] eqn:Hth; cbn.
  2:{ eexists. split; [done|]. intros th' pre suf [=]. }
  destruct (print_wrapped env th) as [[]|e] eqn:Hpw; cbn.
  2:{ eexists. split; [done|]. intros th' pre suf [= <-]. congruence. }
  rewrite Hlist. cbn. rewrite Hiter. cbn. rewrite He0. cbn.
  eexists. split; [done|].
  intros th' pre suf _ _ -> Hpre.
  rewrite (retrieved_nodes_first _ _ _ _ _ Hpre Hk) in He0. congruence.
Qed.

(** A well-formed reply whose ids the index knows yields the texts joined
    in the order of the reply. *)
Lemma relevant_content_joined env tree out j th ids resolved texts :
  loads env out = Ok j ->
  getitem j "thinking" = Ok th ->
  print_wrapped env th = Ok tt ->
  getitem j "node_list" = Ok (JArr (JStr <$> ids)) ->
  Forall2 (fun id n => create_node_mapping tree !! id = Some n) ids resolved ->
  Forall2 (fun n t => text n = Some t) resolved texts ->
  relevant_content env tree out = Ok (join (nl +:+ nl) texts).
Proof.
  intros Hloads Hth Hpw Hlist Hres Htexts.
  destruct (node_texts_resolved _ _ _ _ Hres Htexts) as [H1 H2].
  unfold relevant_content. cbn zeta. rewrite Hloads. cbn.
  rewrite Hth. cbn. rewrite Hpw. cbn. rewrite Hlist. cbn.
  rewrite H1. cbn. by rewrite H2.
Qed.

Lemma resolve_present tree ids :
  Forall (fun id => id ∈ node_id <$> all_nodes tree) ids ->
  exists resolved,
    Forall2 (fun id n => create_node_mapping tree !! id = Some n
                         /\ n ∈ all_nodes tree /\ node_id n = id) ids resolved.
Proof.
  induction 1 as [|id ids Hid _ [resolved IH]].
  - by exists [].
  - destruct (create_node_mapping_present _ _ Hid) as (n & Hn & Hnid & Hlook).
    exists (n :: resolved). by constructor.
Qed.

Lemma texts_present (tree resolved : list TreeNode) :
  Forall (fun n => is_Some (text n)) tree ->
  Forall (fun n => n ∈ tree) resolved ->
  exists texts, Forall2 (fun n t => text n = Some t) resolved texts.
Proof.
  intros Hfull. induction 1 as [|n resolved Hn _ [texts IH]].
  - by exists [].
  - rewrite Forall_forall in Hfull. destruct (Hfull _ Hn) as [t Ht].
    exists (t :: texts). by constructor.
Qed.

(** ** Occurrence and the flattened tree *)

Lemma get_all_nodes_self n : n ∈ get_all_nodes n.
Proof. destruct n. cbn. apply elem_of_cons. by left. Qed.

Lemma elem_of_flat_map {A B} (f : A -> list B) (l : list A) (y : B) :
  y ∈ flat_map f l <-> exists x, x ∈ l /\ y ∈ f x.
Proof.
  induction l as [|a l IH]; cbn [flat_map].
  - split; [by intros ?%elem_of_nil | by intros (x & ?%elem_of_nil & _)].
  - rewrite elem_of_app, IH. split.
    + intros [Hy | (x & Hx & Hy)].
      * exists a. split; [apply elem_of_cons; by left | done].
      * exists x. split; [apply elem_of_cons; by right | done].
    + intros (x & [-> | Hx]%elem_of_cons & Hy); [by left|]. right. by exists x.
Qed.

Lemma get_all_nodes_unfold n : get_all_nodes n = n :: flat_map get_all_nodes (nodes n).
Proof. by destruct n. Qed.

Lemma get_all_nodes_child r p c :
  p ∈ get_all_nodes r -> c ∈ nodes p -> c ∈ get_all_nodes r.
Proof.
  induction r as [r IH] using TreeNode_nested_ind. intros Hp Hc.
  rewrite get_all_nodes_unfold in *. apply elem_of_cons. right.
  apply elem_of_cons in Hp as [-> | Hp].
  - apply elem_of_flat_map. exists c. split; [done | apply get_all_nodes_self].
  - apply elem_of_flat_map in Hp as (k & Hk & Hp). apply elem_of_flat_map.
    exists k. split; [done|]. rewrite Forall_forall in IH. by apply IH.
Qed.

Lemma get_all_nodes_occurs tree r n :
  occurs_in tree r -> n ∈ get_all_nodes r -> occurs_in tree n.
Proof.
  revert n. induction r as [r IH] using TreeNode_nested_ind. intros n Hr Hn.
  rewrite get_all_nodes_unfold in Hn. apply elem_of_cons in Hn as [-> | Hn]; [done|].
  apply elem_of_flat_map in Hn as (k & Hk & Hn).
  rewrite Forall_forall in IH. apply (IH k Hk); [|done].
  by apply (occurs_child tree r k).
Qed.

(** The flattened tree holds exactly the nodes that occur in the tree. *)
Lemma all_nodes_occurs tree n : n ∈ all_nodes tree <-> occurs_in tree n.
Proof.
  unfold all_nodes. split.
  - intros (r & Hr & Hn)%elem_of_flat_map.
    apply (get_all_nodes_occurs tree r); [by apply occurs_root | done].
  - induction 1 as [n Hn | p c _ IH Hc].
    + apply elem_of_flat_map. exists n. split; [done | apply get_all_nodes_self].
    + apply elem_of_flat_map in IH as (r & Hr & Hp). apply elem_of_flat_map.
      exists r. split; [done|]. by apply (get_all_nodes_child r p c).
Qed.


Lemma join_concat sep parts : join sep parts = String.concat sep parts.
Proof.
  induction parts as [|p parts IH]; [done|].
  cbn [join String.concat]. destruct parts; [done|]. by rewrite IH.
Qed.

(** ** Strings: suffixes and lower case *)

Lemma string_app_nil (b : string) : "" +:+ b = b.
Proof. reflexivity. Qed.

Lemma string_app_cons (c : ascii) (a b : string) : String c a +:+ b = String c (a +:+ b).
Proof. reflexivity. Qed.

Lemma string_app_assoc (a b c : string) : (a +:+ b) +:+ c = a +:+ (b +:+ c).
Proof.
  induction a as [|x a IH]; [done|].
  rewrite !string_app_cons. by f_equal.
Qed.

Lemma string_length_app (a b : string) :
  String.length (a +:+ b) = (String.length a + String.length b)%nat.
Proof.
  induction a as [|x a IH]; [done|].
  rewrite string_app_cons. cbn [String.length]. by rewrite IH.
Qed.

Lemma substring_whole (s : string) : substring 0 (String.length s) s = s.
Proof. induction s as [|c s IH]; [done|]. cbn [String.length substring]. by rewrite IH. Qed.

Lemma substring_past (a b : string) (m : nat) :
  substring (String.length a) m (a +:+ b) = substring 0 m b.
Proof.
  induction a as [|x a IH]; [done|].
  rewrite string_app_cons. cbn [String.length substring]. exact IH.
Qed.

Lemma substring_split (s : string) (k : nat) :
  (k <= String.length s)%nat ->
  s = substring 0 k s +:+ substring k (String.length s - k) s.
Proof.
  revert k. induction s as [|c s IH]; intros k Hk.
  - cbn in Hk. assert (k = 0%nat) as -> by lia. reflexivity.
  - destruct k as [|k].
    + rewrite Nat.sub_0_r, substring_whole. reflexivity.
    + cbn [String.length] in *. cbn [substring Nat.sub].
      rewrite string_app_cons. f_equal. apply IH. lia.
Qed.

(** [endswith] holds exactly of the strings that are something followed
    by the suffix. *)
Lemma endswith_spec (s suffix : string) :
  endswith s suffix = true <-> exists stem, s = stem +:+ suffix.
Proof.
  unfold endswith. split.
  - destruct (Nat.leb_spec (String.length suffix) (String.length s)) as [Hle|]; [|done].
    intros Heq%String.eqb_eq.
    exists (substring 0 (String.length s - String.length suffix) s).
    pose proof (substring_split s (String.length s - String.length suffix)) as Hsplit.
    replace (String.length s - (String.length s - String.length suffix))%nat
      with (String.length suffix) in Hsplit by lia.
    rewrite Heq in Hsplit. apply Hsplit. lia.
  - intros [stem ->]. rewrite string_length_app.
    destruct (Nat.leb_spec (String.length suffix) (String.length stem + String.length suffix))
      as [_|]; [|lia].
    replace (String.length stem + String.length suffix - String.length suffix)%nat
      with (String.length stem) by lia.
    rewrite substring_past, substring_whole. apply String.eqb_refl.
Qed.

Lemma lower_app (a b : string) : lower (a +:+ b) = lower a +:+ lower b.
Proof.
  induction a as [|x a IH]; [done|].
  rewrite string_app_cons. cbn [lower]. rewrite string_app_cons. by f_equal.
Qed.

Lemma lower_app_inv (s a b : string) :
  lower s = a +:+ b -> exists s1 s2, s = s1 +:+ s2 /\ lower s1 = a /\ lower s2 = b.
Proof.
  revert s. induction a as [|x a IH]; intros s Hs.
  - by exists "", s.
  - rewrite string_app_cons in Hs. destruct s as [|c s]; [done|].
    cbn [lower] in Hs. injection Hs as Hc Hs.
    destruct (IH _ Hs) as (s1 & s2 & -> & <- & <-).
    exists (String c s1), s2. cbn [lower]. rewrite string_app_cons, Hc. done.
Qed.

Lemma lower_ascii_dot c : lower_ascii c = "."%char -> c = "."%char.
Proof.
  destruct c as [[] [] [] [] [] [] [] []]; vm_compute; intros H; first [done | discriminate H].
Qed.

Lemma lower_ascii_p c : lower_ascii c = "p"%char -> c = "p"%char \/ c = "P"%char.
Proof.
  destruct c as [[] [] [] [] [] [] [] []]; vm_compute; intros H;
    first [by left | by right | discriminate H].
Qed.

Lemma lower_ascii_d c : lower_ascii c = "d"%char -> c = "d"%char \/ c = "D"%char.
Proof.
  destruct c as [[] [] [] [] [] [] [] []]; vm_compute; intros H;
    first [by left | by right | discriminate H].
Qed.

Lemma lower_ascii_f c : lower_ascii c = "f"%char -> c = "f"%char \/ c = "F"%char.
Proof.
  destruct c as [[] [] [] [] [] [] [] []]; vm_compute; intros H;
    first [by left | by right | discriminate H].
Qed.

(** The file names that pass the extension check of [upload_pdf]. *)
Lemma extension_check_spec (name : string) :
  endswith (lower name) ".pdf" = true <-> ends_in_pdf name.
Proof.
  rewrite endswith_spec. unfold ends_in_pdf, pdf_extensions. split.
  - intros [stem' Hlow].
    destruct (lower_app_inv _ _ _ Hlow) as (stem & ext & -> & _ & Hext).
    exists stem, ext. split; [|done].
    destruct ext as [|a [|b [|c [|d [|]]]]]; try discriminate Hext.
    cbn [lower] in Hext. injection Hext as Ha Hb Hc Hd.
    apply lower_ascii_dot in Ha as ->.
    apply lower_ascii_p in Hb as [-> | ->];
      apply lower_ascii_d in Hc as [-> | ->];
      apply lower_ascii_f in Hd as [-> | ->];
      repeat constructor.
  - intros (stem & ext & Hext & ->). exists (lower stem). rewrite lower_app. f_equal.
    repeat (apply elem_of_cons in Hext as [-> | Hext]; [reflexivity|]).
    by apply elem_of_nil in Hext.
Qed.

(** ** Generated ids and storage paths *)

Lemma hex_digit_not_separator d : hex_digit d <> "/"%char.
Proof.
  unfold hex_digit.
  repeat match goal with
         | |- context [match ?x with _ => _ end] => destruct x
         end; discriminate.
Qed.

(** A generated id is 36 characters long and holds no path separator. *)
Lemma uuid_str_no_separator i :
  String.length (uuid_str i) = 36%nat
  /\ Forall (fun c => c <> "/"%char) (list_ascii_of_string (uuid_str i +:+ ".pdf")).
Proof.
  unfold uuid_str. cbn [hex_digits substring String.append list_ascii_of_string String.length].
  split; [reflexivity|].
  repeat constructor; try apply hex_digit_not_separator; discriminate.
Qed.

Lemma storage_file_path env id :
  Forall (fun c => c <> "/"%char) (list_ascii_of_string (id +:+ ".pdf")) ->
  storage_file env id = storage_dir env +:+ id +:+ ".pdf".
Proof.
  intros Hid. unfold storage_file, storage_dir, os_path_join, startswith.
  assert (String.prefix "/" (id +:+ ".pdf") = false) as ->.
  { destruct (id +:+ ".pdf") as [|c rest]; [done|].
    cbn [list_ascii_of_string] in Hid. cbn [String.prefix].
    apply Forall_cons in Hid as [Hc _].
    destruct (ascii_dec "/" c) as [<- | _]; done. }
  destruct (_ || _)%bool; [done|].
  by rewrite string_app_assoc.
Qed.

(** ** The upload and delete handlers, step by step *)

Lemma upload_pdf_rejects env file w :
  valid_upload env file = false ->
  exists detail,
    upload_pdf env file w = (Raise (HTTPException 400 (JStr detail)), w).
Proof.
  unfold valid_upload, upload_pdf. intros Hbad.
  destruct (endswith _ ".pdf"); cbn [negb andb] in *; [|by eexists].
  apply negb_false_iff in Hbad. rewrite Hbad. by eexists.
Qed.

(** An upload that passes the checks: the id is drawn, the file written
    and submitted; the outcome of the submission decides between the two
    inserts and the removal of the file. *)
Lemma upload_pdf_accepts env file w :
  valid_upload env file = true ->
  let id := fresh_id env w in
  let path := storage_file env id in
  let data := upload_content file in
  upload_pdf env file w =
  match disk_write env (length (log w)) path with
  | OpenFailed => (Raise OSError, with_draw w)
  | WriteFailed n => (Raise OSError, with_disk <[path := take n data]> (with_draw w))
  | Written =>
      let stored := with_event (EvSubmit path) (with_disk <[path := data]> (with_draw w)) in
      match processed env w path data with
      | Raise e =>
          (Raise (HTTPException 500 (JStr ("Error processing PDF: " +:+ exn_str env e))),
           with_disk (delete path) stored)
      | Ok d =>
          (Ok {| up_pdf_id := id; up_filename := upload_filename file; up_status := "success" |},
           with_pdf_storage
             <[id := {| filename := upload_filename file; file_path := path;
                        doc_id := d; upload_time := utcnow env (S (length (log w))) |}]>
             (with_doc_storage <[id := d]> stored))
      end
  end.
Proof.
  intros Hvalid id path data. unfold valid_upload in Hvalid.
  apply andb_true_iff in Hvalid as [Hext Hsize].
  apply negb_true_iff in Hsize.
  unfold upload_pdf. rewrite Hext, Hsize. cbn [negb].
  unfold mbind at 1. unfold M_bind, bind at 1, uuid4 at 1.
  fold (fresh_id env w). fold id. fold (storage_file env id). fold path. fold data.
  unfold mbind at 1. unfold M_bind, bind at 1, write_file at 1.
  cbn [log with_draw].
  destruct (disk_write env (length (log w)) path); [|done|done].
  unfold try_except, processed.
  unfold mbind at 1. unfold M_bind, bind at 1, pi_submit_document at 1.
  cbn [log disk with_disk with_draw]. rewrite lookup_insert_eq.
  assert (Hthere : forall (wx : World) e,
             disk wx !! path = Some data ->
             ((there ← os_path_exists path;
               (if there : bool then os_remove path else mret tt);;
               raise (HTTPException 500 (JStr ("Error processing PDF: " +:+ exn_str env e))))
              : M UploadResponse) wx
             = (Raise (HTTPException 500 (JStr ("Error processing PDF: " +:+ exn_str env e))),
                with_disk (delete path) wx)).
  { intros wx e Hwx.
    unfold mbind, M_bind, bind, os_path_exists, gets, os_remove, modify, raise.
    rewrite Hwx. rewrite bool_decide_eq_true_2; [done | by eexists]. }
  destruct (submit_document env (length (log w)) path (Some data)) as [resp|e]; cbn.
  2:{ rewrite Hthere; [done|]. cbn. by rewrite lookup_insert_eq. }
  unfold mbind at 1. unfold M_bind, bind at 1, lift at 1.
  destruct (getitem resp "doc_id") as [d|e].
  2:{ rewrite Hthere; [done|]. cbn. by rewrite lookup_insert_eq. }
  unfold mbind, M_bind, bind, modify, datetime_utcnow, gets, mret, M_ret, ret.
  cbn [log with_event with_doc_storage with_disk with_draw].
  rewrite length_app, Nat.add_1_r. done.
Qed.

Lemma delete_pdf_unknown id w :
  pdf_storage w !! id = None ->
  delete_pdf id w = (Raise (HTTPException 404 (JStr "PDF not found")), w).
Proof.
  intros Hnone. unfold delete_pdf, mbind, M_bind, bind, gets, raise. by rewrite Hnone.
Qed.

Lemma delete_if_present {V} (m : gmap string V) (k : string) :
  (if bool_decide (is_Some (m !! k)) then delete k m else m) = delete k m.
Proof.
  case_bool_decide as Hk; [done|].
  rewrite <- eq_None_not_Some in Hk. by rewrite delete_id.
Qed.

Lemma delete_pdf_known id w info :
  pdf_storage w !! id = Some info ->
  delete_pdf id w =
  (Ok ("PDF " +:+ id +:+ " deleted successfully"),
   with_doc_storage (delete id)
     (with_pdf_storage (delete id) (with_disk (delete (file_path info)) w))).
Proof.
  intros Hsome. unfold delete_pdf.
  unfold mbind, M_bind, bind, gets, os_path_exists, os_remove, modify, mret, M_ret, ret.
  rewrite Hsome. destruct w as [pdfs docs files lg n]. cbn in *.
  pose proof (delete_if_present files (file_path info)) as Hf.
  pose proof (delete_if_present docs id) as Hd.
  unfold with_doc_storage, with_pdf_storage, with_disk. revert Hf Hd.
  destruct (bool_decide (is_Some (files !! file_path info))); cbn;
    destruct (bool_decide (is_Some (docs !! id))); cbn;
    intros Hf Hd; by rewrite <- ?Hf, <- ?Hd.
Qed.

(** ** Handlers that leave the dicts and the disk alone *)

Lemma same_stores_refl w : same_stores w w.
Proof. done. Qed.

Lemma same_stores_trans w1 w2 w3 :
  same_stores w1 w2 -> same_stores w2 w3 -> same_stores w1 w3.
Proof. intros (? & ? & ?) (? & ? & ?). repeat split; congruence. Qed.

Lemma keeps_ret {A} (a : A) : keeps_stores (mret a).
Proof. intros w. done. Qed.

Lemma keeps_raise {A} e : keeps_stores (raise (A:=A) e).
Proof. intros w. done. Qed.

Lemma keeps_lift {A} (r : result A) : keeps_stores (lift r).
Proof. intros w. done. Qed.

Lemma keeps_gets {A} (f : World -> A) : keeps_stores (gets f).
Proof. intros w. done. Qed.

Lemma keeps_bind {A B} (m : M A) (k : A -> M B) :
  keeps_stores m -> (forall a, keeps_stores (k a)) -> keeps_stores (m ≫= k).
Proof.
  intros Hm Hk w. unfold mbind, M_bind, bind.
  specialize (Hm w). destruct (m w) as [[a|e] w1]; cbn in *; [|done].
  eapply same_stores_trans; [exact Hm | apply Hk].
Qed.

Lemma keeps_try_except {A} (m : M A) (h : exn -> M A) :
  keeps_stores m -> (forall e, keeps_stores (h e)) -> keeps_stores (try_except m h).
Proof.
  intros Hm Hh w. unfold try_except.
  specialize (Hm w). destruct (m w) as [[a|e] w1]; cbn in *; [done|].
  eapply same_stores_trans; [exact Hm | apply Hh].
Qed.

Lemma keeps_uuid4 env : keeps_stores (uuid4 env).
Proof. intros w. done. Qed.

Lemma keeps_datetime_utcnow env : keeps_stores (datetime_utcnow env).
Proof. intros w. done. Qed.

Lemma keeps_pi_is_retrieval_ready env d : keeps_stores (pi_is_retrieval_ready env d).
Proof. intros w. done. Qed.

Lemma keeps_pi_get_tree env d : keeps_stores (pi_get_tree env d).
Proof. intros w. done. Qed.

Lemma keeps_telkomllm_call env prompt max_tokens temperature :
  keeps_stores (telkomllm_call env prompt max_tokens temperature).
Proof.
  intros w.
  destruct (telkomllm_call_returns env prompt max_tokens temperature w)
    as (out & w' & -> & ? & ? & ? & _).
  done.
Qed.

Create HintDb keeps.
#[local] Hint Resolve keeps_ret keeps_raise keeps_lift keeps_gets keeps_uuid4
  keeps_datetime_utcnow keeps_pi_is_retrieval_ready keeps_pi_get_tree
  keeps_telkomllm_call : keeps.

Ltac keeps_step :=
  match goal with
  | |- keeps_stores (_ ≫= _) => apply keeps_bind; [|intros ?]
  | |- keeps_stores (try_except _ _) => apply keeps_try_except; [|intros ?]
  | |- keeps_stores (if ?b then _ else _) => destruct b
  | |- keeps_stores (match ?x with _ => _ end) => destruct x
  | |- keeps_stores _ => solve [eauto with keeps]
  end.

Lemma keeps_chat_try env req tree sid : keeps_stores (chat_try env req tree sid).
Proof. unfold chat_try. cbn zeta. repeat keeps_step. Qed.

Lemma keeps_chat_with_pdf env req : keeps_stores (chat_with_pdf env req).
Proof.
  unfold chat_with_pdf. repeat keeps_step. apply keeps_chat_try.
Qed.

(** ** The two dicts *)

Lemma stores_agree_same w w' :
  pdf_storage w' = pdf_storage w -> doc_storage w' = doc_storage w ->
  stores_agree w -> stores_agree w'.
Proof. unfold stores_agree. by intros -> ->. Qed.

Lemma stores_agree_insert w id info :
  stores_agree w ->
  stores_agree (with_pdf_storage <[id := info]> (with_doc_storage <[id := doc_id info]> w)).
Proof.
  intros [Hdom Hdoc]. split; cbn.
  - by rewrite !dom_insert_L, Hdom.
  - intros k info' Hk. destruct (decide (k = id)) as [-> | Hne].
    + rewrite lookup_insert_eq in Hk. injection Hk as <-. by rewrite lookup_insert_eq.
    + rewrite lookup_insert_ne in Hk by done. rewrite lookup_insert_ne by done. by apply Hdoc.
Qed.

Lemma stores_agree_delete w id :
  stores_agree w ->
  stores_agree (with_doc_storage (delete id) (with_pdf_storage (delete id) w)).
Proof.
  intros [Hdom Hdoc]. split; cbn.
  - by rewrite !dom_delete_L, Hdom.
  - intros k info Hk. destruct (decide (k = id)) as [-> | Hne].
    + by rewrite lookup_delete_eq in Hk.
    + rewrite lookup_delete_ne in Hk by done. rewrite lookup_delete_ne by done. by apply Hdoc.
Qed.

(** What one request does to the dicts: nothing when it fails, and
    otherwise nothing (chat), one insert into each under one key with one
    document id (upload) or one removal from each (delete). *)
Lemma handle_stores env rq w :
  let w' := snd (handle env rq w) in
  (fst (handle env rq w) = false ->
   pdf_storage w' = pdf_storage w /\ doc_storage w' = doc_storage w)
  /\ (stores_agree w -> stores_agree w').
Proof.
  destruct rq as [file | req | id]; cbn [handle].
  - destruct (valid_upload env file) eqn:Hvalid.
    + pose proof (upload_pdf_accepts env file w Hvalid) as Hrun. cbn zeta in Hrun.
      rewrite Hrun.
      destruct (disk_write env _ _); [|by split; [|apply stores_agree_same]..].
      destruct (processed env w _ _) as [d|e]; cbn.
      * split; [done|]. intros Hagree.
        apply (stores_agree_insert _ _ {| doc_id := d |}).
        revert Hagree. by apply stores_agree_same.
      * split; [done|]. by apply stores_agree_same.
    + destruct (upload_pdf_rejects env file w Hvalid) as [detail ->]. by split.
  - pose proof (keeps_chat_with_pdf env req w) as (Hp & Hd & _).
    destruct (chat_with_pdf env req w) as [r w']. cbn in *.
    split; [done|]. by apply stores_agree_same.
  - destruct (pdf_storage w !! id) as [info|] eqn:Hid.
    + rewrite (delete_pdf_known _ _ _ Hid). cbn. split; [done|].
      intros Hagree.
      apply (stores_agree_delete (with_disk (delete (file_path info)) w)).
      revert Hagree. by apply stores_agree_same.
    + rewrite (delete_pdf_unknown _ _ Hid). by split.
Qed.

(** ** The retrieval protocol *)


(** C2. When the reply of the node-selection call parses to a dict with a
    [thinking] entry that can be printed and a [node_list] of ids that all
    occur in the tree (whose nodes carry their text), the context is the
    texts of the resolved nodes, in the order of [node_list], with two
    newline characters between consecutive texts, and the prompt of the
    answer-synthesis call holds it after "Context: ". For the nodes A
    "cat" and B "dog" and the list A, B it is "cat", a blank line,
    "dog". *)
Theorem context_joins_texts_in_node_list_order
    (env : Env) (tree : list TreeNode) (out j th : json) (ids : list string) :
  loads env out = Ok j ->
  getitem j "thinking" = Ok th ->
  print_wrapped env th = Ok tt ->
  getitem j "node_list" = Ok (JArr (JStr <$> ids)) ->
  Forall (fun id => exists n, occurs_in tree n /\ node_id n = id) ids ->
  (forall n, occurs_in tree n -> is_Some (text n)) ->
  exists resolved texts,
    Forall2 (fun id n => create_node_mapping tree !! id = Some n
                         /\ occurs_in tree n /\ node_id n = id) ids resolved
    /\ Forall2 (fun n t => text n = Some t) resolved texts
    /\ relevant_content env tree out = Ok (String.concat "

" texts)
    /\ (exists head tail, forall question context,
           answer_prompt question context =
           head +:+ "Question: " +:+ question +:+ "
        Context: " +:+ context +:+ tail)
    /\ forall req sid w w2,
        telkomllm_call env (selection_prompt env req tree)
          (LLM_MAX_TOKENS (settings env)) (LLM_TEMPERATURE (settings env)) w = (Ok out, w2) ->
        exists r w3 rest,
          chat_try env req tree sid w = (r, w3)
          /\ log w3 = log w2 ++
               llm_post env (chat_payload env
                               (answer_prompt (message req) (String.concat "

" texts))) :: rest.
Proof.
  intros Hloads Hth Hpw Hlist Hids Hfull.
  assert (Hids' : Forall (fun id => id ∈ node_id <$> all_nodes tree) ids).
  { eapply Forall_impl; [exact Hids|]. intros id (n & Hn & <-).
    apply list_elem_of_fmap_2. by apply all_nodes_occurs. }
  assert (Hfull' : Forall (fun n => is_Some (text n)) (all_nodes tree)).
  { apply Forall_forall. intros n Hn. by apply Hfull, all_nodes_occurs. }
  destruct (resolve_present _ _ Hids') as [resolved Hres].
  destruct (texts_present (all_nodes tree) resolved Hfull') as [texts Htexts].
  { clear -Hres. induction Hres as [|???? (_ & ? & _)]; by constructor. }
  assert (Hctx : relevant_content env tree out = Ok (String.concat "

" texts)).
  { rewrite <- join_concat.
    apply (relevant_content_joined env tree out j th ids resolved texts); try done.
    eapply Forall2_impl; [exact Hres|]. by intros ?? (? & _). }
  exists resolved, texts.
  split.
  { eapply Forall2_impl; [exact Hres|]. intros id n (? & ? & ?).
    split; [done|]. split; [by apply all_nodes_occurs | done]. }
  split; [done|]. split; [done|].
  split.
  { exists (nl +:+ "        Answer the question based on the context:" +:+ nl +:+ nl +:+ "        ").
    exists (nl +:+ nl +:+
            "        Provide a clear, concise answer based only on the context provided." +:+ nl +:+
            "        ").
    intros question context. reflexivity. }
  intros req sid w w2 Hsel.
  exact (chat_try_selection_succeeds _ _ _ sid _ _ _ _ Hsel Hctx).
Qed.

(** C3. When the reply of the node-selection call is not parseable as
    JSON, the request ends with the 500 of the handler in the world in
    which that call returned: nothing is called afterwards. Every POST of
    the request carries the node-selection prompt, none the
    answer-synthesis prompt; and when the first attempt came back with
    anything but an error indicator (unparseable text included) the
    selection prompt was posted exactly once. *)
Theorem chat_unparseable_selection_fails
    (env : Env) (req : ChatRequest) (w : World) (tree : list TreeNode)
    (sid : string) (w1 : World) (out : json) (w2 : World) :
  chat_reaches_try env req w tree sid w1 ->
  telkomllm_call env (selection_prompt env req tree)
    (LLM_MAX_TOKENS (settings env)) (LLM_TEMPERATURE (settings env)) w1 = (Ok out, w2) ->
  (forall j, loads env out <> Ok j) ->
  let sel := chat_payload env (selection_prompt env req tree) in
  exists e,
    (e = JSONDecodeError \/ e = TypeError)
    /\ chat_with_pdf env req w =
       (Raise (HTTPException 500 (JStr ("Error processing query: " +:+ exn_str env e))), w2)
    /\ (posts (log w2) = posts (log w) ++ [sel] \/ posts (log w2) = posts (log w) ++ [sel; sel])
    /\ (forall first w',
           make_async_api_call env (URL_CUSTOM_LLM (settings env))
             (TOKEN_CUSTOM_LLM (settings env)) sel w1 = (Ok first, w') ->
           is_error first = false ->
           out = first /\ posts (log w2) = posts (log w) ++ [sel])
    /\ (forall ctx,
           chat_payload env (answer_prompt (message req) ctx)
             ∉ drop (length (posts (log w))) (posts (log w2))).
Proof.
  intros Hreach Hsel Hbad sel.
  destruct (relevant_content_unparseable env tree out Hbad) as (e & Hctx & He).
  exists e. split; [exact He|].
  exact (chat_fails_before_synthesis _ _ _ _ _ _ _ _ _ Hreach Hsel Hctx).
Qed.

(** C4. When the parsed [node_list] holds an id that the index of the
    tree lacks, the request ends with the 500 of the handler in the world
    in which the node-selection call returned: no answer is produced from
    the ids that do resolve and the answer-synthesis prompt is never
    posted. The exception behind the 500 is the [KeyError] of that id when
    the steps before its lookup succeed. *)
Theorem chat_absent_node_id_fails
    (env : Env) (req : ChatRequest) (w : World) (tree : list TreeNode)
    (sid : string) (w1 : World) (out : json) (w2 : World)
    (j l : json) (items : list json) (id : string) :
  chat_reaches_try env req w tree sid w1 ->
  telkomllm_call env (selection_prompt env req tree)
    (LLM_MAX_TOKENS (settings env)) (LLM_TEMPERATURE (settings env)) w1 = (Ok out, w2) ->
  loads env out = Ok j ->
  getitem j "node_list" = Ok l ->
  iter l = Ok items ->
  JStr id ∈ items ->
  create_node_mapping tree !! id = None ->
  let sel := chat_payload env (selection_prompt env req tree) in
  exists e,
    chat_with_pdf env req w =
      (Raise (HTTPException 500 (JStr ("Error processing query: " +:+ exn_str env e))), w2)
    /\ (posts (log w2) = posts (log w) ++ [sel] \/ posts (log w2) = posts (log w) ++ [sel; sel])
    /\ (forall ctx,
           chat_payload env (answer_prompt (message req) ctx)
             ∉ drop (length (posts (log w))) (posts (log w2)))
    /\ (forall th pre suf,
           getitem j "thinking" = Ok th ->
           print_wrapped env th = Ok tt ->
           items = pre ++ JStr id :: suf ->
           Forall (fun k => is_ok (node_map_getitem (create_node_mapping tree) k) = true) pre ->
           e = KeyError (JStr id)).
Proof.
  intros Hreach Hsel Hloads Hlist Hiter Hin Habsent sel.
  destruct (relevant_content_absent env tree out j l items id Hloads Hlist Hiter Hin Habsent)
    as (e & Hctx & Hkey).
  exists e.
  destruct (chat_fails_before_synthesis _ _ _ _ _ _ _ _ _ Hreach Hsel Hctx)
    as (Hrun & Hposts & _ & Hnone).
  done.
Qed.

(** C5. A chat request for a stored PDF whose document the service
    reports as not ready ends with the 400 "still processing" condition;
    the only call it makes is the readiness query, so no POST to the LLM
    endpoint, and nothing else changes. *)
Theorem chat_not_ready_still_processing
    (env : Env) (req : ChatRequest) (w : World) (info : PdfInfo) :
  pdf_storage w !! pdf_id req = Some info ->
  is_retrieval_ready env (length (log w)) (doc_id info) = Ok false ->
  exists w',
    chat_with_pdf env req w =
      (Raise (HTTPException 400
                (JStr "Document is still processing, please try again later.")), w')
    /\ log w' = log w ++ [EvReady (doc_id info)]
    /\ posts (log w') = posts (log w)
    /\ pdf_storage w' = pdf_storage w /\ doc_storage w' = doc_storage w
    /\ disk w' = disk w /\ draws w' = draws w.
Proof.
  intros Hpdf Hready. exists (with_event (EvReady (doc_id info)) w).
  split.
  - unfold chat_with_pdf.
    unfold mbind at 1. unfold M_bind, bind at 1, gets at 1. rewrite Hpdf.
    unfold mbind at 1. unfold M_bind, bind at 1, pi_is_retrieval_ready at 1. rewrite Hready.
    unfold mbind at 1. unfold M_bind, bind at 1. done.
  - cbn [log with_event pdf_storage doc_storage disk draws].
    rewrite posts_app. cbn. by rewrite app_nil_r.
Qed.

(** ** Upload and delete *)

Example extension_check_ignores_case :
  endswith (lower "Report.PDF") ".pdf" = true
  /\ endswith (lower "scan.Pdf") ".pdf" = true
  /\ endswith (lower "notes.pdf.exe") ".pdf" = false
  /\ endswith (lower "pdf") ".pdf" = false.
Proof. by repeat split. Qed.

(** C6. An upload whose file name does not end in ".pdf" in any mix of
    upper and lower case, or whose content is longer than [MAX_FILE_SIZE],
    is answered with a 400 and the world is left exactly as it was: no file
    is written, neither dict changes, no id is drawn and nothing is
    called. *)
Theorem upload_invalid_rejected_before_write
    (env : Env) (file : UploadFile) (w : World) :
  ~ ends_in_pdf (upload_filename file)
  \/ MAX_FILE_SIZE (settings env) < Z.of_nat (length (upload_content file)) ->
  exists detail,
    upload_pdf env file w = (Raise (HTTPException 400 (JStr detail)), w).
Proof.
  intros Hbad. apply upload_pdf_rejects. unfold valid_upload.
  destruct Hbad as [Hext | Hbig].
  - destruct (endswith (lower (upload_filename file)) ".pdf") eqn:Hends; [|done].
    by apply extension_check_spec in Hends.
  - apply andb_false_iff. right. apply negb_false_iff. by apply Z.gtb_lt.
Qed.

(** C7. When a valid upload has been written to disk and the processing
    that follows fails (the submission raises, or its response has no
    [doc_id]), the request ends with a 500, the file that was written is
    gone again, every other file is as before, and neither dict has an
    entry more than before. *)
Theorem upload_processing_failure_cleans_up
    (env : Env) (file : UploadFile) (w : World) (e : exn) :
  let path := storage_file env (fresh_id env w) in
  valid_upload env file = true ->
  disk_write env (length (log w)) path = Written ->
  processed env w path (upload_content file) = Raise e ->
  exists w',
    upload_pdf env file w =
      (Raise (HTTPException 500 (JStr ("Error processing PDF: " +:+ exn_str env e))), w')
    /\ disk w' = delete path (<[path := upload_content file]> (disk w))
    /\ disk w' !! path = None
    /\ (forall other, other <> path -> disk w' !! other = disk w !! other)
    /\ pdf_storage w' = pdf_storage w
    /\ doc_storage w' = doc_storage w.
Proof.
  intros path Hvalid Hwrite Hfail.
  pose proof (upload_pdf_accepts env file w Hvalid) as Hrun. cbn zeta in Hrun.
  fold path in Hrun. rewrite Hwrite, Hfail in Hrun.
  eexists. split; [exact Hrun|]. cbn [disk with_disk with_event with_draw pdf_storage doc_storage].
  repeat split.
  - apply lookup_delete_eq.
  - intros other Hother. by rewrite lookup_delete_ne, lookup_insert_ne.
Qed.

(** C9. An accepted upload is stored under the upload directory in the
    file named by the freshly drawn id and ".pdf"; that name holds no path
    separator. The file name of the upload is returned in the response and
    kept in the record and nowhere else: the same content uploaded under
    any other accepted name gets the same id, is written to the same path
    and leaves the same disk, log and document ids, the two records
    differing in their [filename] alone. *)
Theorem upload_path_independent_of_filename
    (env : Env) (file : UploadFile) (w : World) (resp : UploadResponse) (w' : World) :
  upload_pdf env file w = (Ok resp, w') ->
  let id := fresh_id env w in
  let path := storage_file env id in
  resp = {| up_pdf_id := id; up_filename := upload_filename file; up_status := "success" |}
  /\ path = storage_dir env +:+ id +:+ ".pdf"
  /\ Forall (fun c => c <> "/"%char) (list_ascii_of_string (id +:+ ".pdf"))
  /\ disk w' = <[path := upload_content file]> (disk w)
  /\ log w' = log w ++ [EvSubmit path]
  /\ (exists d t,
         pdf_storage w' = <[id := {| filename := upload_filename file; file_path := path;
                                     doc_id := d; upload_time := t |}]> (pdf_storage w)
         /\ doc_storage w' = <[id := d]> (doc_storage w))
  /\ forall name,
      endswith (lower name) ".pdf" = true ->
      exists w'',
        upload_pdf env {| upload_filename := name; upload_content := upload_content file |} w
        = (Ok {| up_pdf_id := id; up_filename := name; up_status := "success" |}, w'')
        /\ disk w'' = disk w' /\ log w'' = log w' /\ draws w'' = draws w'
        /\ doc_storage w'' = doc_storage w'
        /\ dom (pdf_storage w'') = dom (pdf_storage w')
        /\ forall k info, pdf_storage w' !! k = Some info ->
             exists info', pdf_storage w'' !! k = Some info'
                           /\ file_path info' = file_path info
                           /\ doc_id info' = doc_id info
                           /\ upload_time info' = upload_time info
                           /\ (k <> id -> info' = info).
Proof.
  intros Hrun id path.
  assert (Hvalid : valid_upload env file = true).
  { destruct (valid_upload env file) eqn:Hv; [done|].
    destruct (upload_pdf_rejects env file w Hv) as [detail Hrej]. congruence. }
  assert (Hsep : Forall (fun c => c <> "/"%char) (list_ascii_of_string (id +:+ ".pdf"))).
  { apply uuid_str_no_separator. }
  pose proof (upload_pdf_accepts env file w Hvalid) as Hacc. cbn zeta in Hacc.
  fold id path in Hacc. rewrite Hrun in Hacc.
  destruct (disk_write env (length (log w)) path) eqn:Hwrite; [|done|done].
  destruct (processed env w path (upload_content file)) as [d|e] eqn:Hproc; [|done].
  injection Hacc as -> ->.
  split; [done|]. split; [by apply storage_file_path|]. split; [exact Hsep|].
  split; [done|]. split; [done|]. split; [by eexists _, _|].
  intros name Hname.
  set (file2 := {| upload_filename := name; upload_content := upload_content file |}).
  assert (Hvalid2 : valid_upload env file2 = true).
  { unfold valid_upload in *. cbn. rewrite Hname.
    by apply andb_true_iff in Hvalid as [_ ->]. }
  pose proof (upload_pdf_accepts env file2 w Hvalid2) as Hacc2. cbn zeta in Hacc2.
  fold id path in Hacc2. cbn [upload_content upload_filename file2] in Hacc2.
  rewrite Hwrite, Hproc in Hacc2.
  eexists. split; [exact Hacc2|].
  cbn [disk log draws doc_storage pdf_storage with_pdf_storage with_doc_storage
       with_event with_disk with_draw].
  repeat (split; [done|]). split; [by rewrite !dom_insert_L|].
  intros k info Hk. destruct (decide (k = id)) as [-> | Hne].
  - rewrite lookup_insert_eq in Hk. injection Hk as <-.
    eexists. rewrite lookup_insert_eq. by repeat split.
  - rewrite lookup_insert_ne in Hk by done.
    exists info. rewrite lookup_insert_ne by done. by repeat split.
Qed.

(** C10. Both dicts start empty, and whatever requests are served,
    afterwards they hold the same keys and [doc_storage] maps every key to
    the [doc_id] of its record in [pdf_storage]. Every single request
    keeps this: a request that fails leaves both dicts as they were, and
    one that succeeds leaves them in agreement. *)
Theorem pdf_and_doc_storage_agree (env : Env) :
  (forall files rqs, stores_agree (serve env rqs (boot files)))
  /\ (forall rq w, stores_agree w -> stores_agree (snd (handle env rq w)))
  /\ (forall rq w,
         fst (handle env rq w) = false ->
         pdf_storage (snd (handle env rq w)) = pdf_storage w
         /\ doc_storage (snd (handle env rq w)) = doc_storage w).
Proof.
  assert (Hstep : forall rq w, stores_agree w -> stores_agree (snd (handle env rq w))).
  { intros rq w. apply handle_stores. }
  split; [|split; [exact Hstep|]].
  - intros files rqs. unfold serve.
    assert (Hboot : stores_agree (boot files)).
    { split; cbn; [by rewrite !dom_empty_L | intros k info Hk; by rewrite lookup_empty in Hk]. }
    revert Hboot. generalize (boot files).
    induction rqs as [|rq rqs IH]; intros w Hw; cbn; [done|].
    by apply IH, Hstep.
  - intros rq w. apply handle_stores.
Qed.

(** * Further properties of the handlers *)

(** ** Unknown and deleted PDFs *)

Lemma chat_with_pdf_unknown env req w :
  pdf_storage w !! pdf_id req = None ->
  chat_with_pdf env req w = (Raise (HTTPException 404 (JStr "PDF not found")), w).
Proof.
  intros Hnone. unfold chat_with_pdf, mbind, M_bind, bind, gets, raise.
  by rewrite Hnone.
Qed.

(** X1. A chat request for a [pdf_id] that [pdf_storage] does not hold is
    answered with 404 before anything else happens: no call to the
    document service or the LLM endpoint, no id drawn, no change. *)
Theorem chat_unknown_pdf_not_found (env : Env) (req : ChatRequest) (w : World) :
  pdf_storage w !! pdf_id req = None ->
  chat_with_pdf env req w = (Raise (HTTPException 404 (JStr "PDF not found")), w).
Proof.
  apply chat_with_pdf_unknown.
Qed.

(** X2. Deleting a [pdf_id] that [pdf_storage] does not hold is a 404 and
    changes nothing, even when [doc_storage] or the disk still hold
    something under that id. *)
Theorem delete_unknown_pdf_not_found (id : string) (w : World) :
  pdf_storage w !! id = None ->
  delete_pdf id w = (Raise (HTTPException 404 (JStr "PDF not found")), w)
  /\ forall env, handle env (Delete id) w = (false, w).
Proof.
  intros Hnone. pose proof (delete_pdf_unknown id w Hnone) as Hrun.
  split; [exact Hrun|]. intros env. cbn [handle]. by rewrite Hrun.
Qed.

(** X3. Deleting a stored PDF succeeds whether or not its file is still
    on disk. Afterwards the record, the document id and the file of the
    record are gone, every other record, document id and file is as
    before, and nothing was called. *)
Theorem delete_known_pdf_removes_record_and_file (id : string) (w : World) (info : PdfInfo) :
  pdf_storage w !! id = Some info ->
  exists w',
    delete_pdf id w = (Ok ("PDF " +:+ id +:+ " deleted successfully"), w')
    /\ pdf_storage w' !! id = None
    /\ doc_storage w' !! id = None
    /\ disk w' !! file_path info = None
    /\ (forall other, other <> id ->
          pdf_storage w' !! other = pdf_storage w !! other
          /\ doc_storage w' !! other = doc_storage w !! other)
    /\ (forall path, path <> file_path info -> disk w' !! path = disk w !! path)
    /\ log w' = log w /\ draws w' = draws w.
Proof.
  intros Hid. eexists. split; [exact (delete_pdf_known id w info Hid)|].
  cbn [pdf_storage doc_storage disk log draws with_doc_storage with_pdf_storage with_disk].
  split; [apply lookup_delete_eq|]. split; [apply lookup_delete_eq|].
  split; [apply lookup_delete_eq|].
  split; [intros other Hne; by rewrite !lookup_delete_ne|].
  split; [intros path Hne; by rewrite lookup_delete_ne|done].
Qed.

(** X4. Once a PDF is deleted it is unknown: a second delete and a chat
    request for the same id are both answered with 404 and change
    nothing. *)
Theorem deleted_pdf_is_not_found (env : Env) (id : string) (w : World) (info : PdfInfo)
    (msg : string) (w' : World) :
  pdf_storage w !! id = Some info ->
  delete_pdf id w = (Ok msg, w') ->
  delete_pdf id w' = (Raise (HTTPException 404 (JStr "PDF not found")), w')
  /\ forall question sid,
      chat_with_pdf env {| message := question; pdf_id := id; session_id := sid |} w'
      = (Raise (HTTPException 404 (JStr "PDF not found")), w').
Proof.
  intros Hid Hdel. rewrite (delete_pdf_known id w info Hid) in Hdel.
  injection Hdel as _ <-.
  assert (Hgone : pdf_storage
                    (with_doc_storage (delete id)
                       (with_pdf_storage (delete id)
                          (with_disk (delete (file_path info)) w))) !! id = None).
  { cbn. apply lookup_delete_eq. }
  split; [by apply delete_pdf_unknown|].
  intros question sid. by apply chat_with_pdf_unknown.
Qed.

(** What an accepted upload has gone through, and the world it leaves. *)
Lemma upload_pdf_ok_inv env file w resp w1 :
  upload_pdf env file w = (Ok resp, w1) ->
  let id := fresh_id env w in
  let path := storage_file env id in
  valid_upload env file = true
  /\ disk_write env (length (log w)) path = Written
  /\ resp = {| up_pdf_id := id; up_filename := upload_filename file; up_status := "success" |}
  /\ exists d,
      processed env w path (upload_content file) = Ok d
      /\ w1 = with_pdf_storage
                <[id := {| filename := upload_filename file; file_path := path;
                           doc_id := d; upload_time := utcnow env (S (length (log w))) |}]>
                (with_doc_storage <[id := d]>
                   (with_event (EvSubmit path)
                      (with_disk <[path := upload_content file]> (with_draw w)))).
Proof.
  intros Hup id path.
  assert (Hvalid : valid_upload env file = true).
  { destruct (valid_upload env file) eqn:Hv; [done|].
    destruct (upload_pdf_rejects env file w Hv) as [detail Hrej]. congruence. }
  pose proof (upload_pdf_accepts env file w Hvalid) as Hacc. cbn zeta in Hacc.
  fold id path in Hacc. rewrite Hup in Hacc.
  destruct (disk_write env (length (log w)) path); [|done|done].
  destruct (processed env w path (upload_content file)) as [d|e]; [|done].
  injection Hacc as -> ->. repeat split; try done. by exists d.
Qed.

(** X5. Upload followed by the delete of the returned id: the delete
    succeeds, the stored file is gone and neither dict has an entry for the
    id. When the id and its file were new, both dicts and the disk are
    back to what they were before the upload. *)
Theorem upload_then_delete_leaves_nothing
    (env : Env) (file : UploadFile) (w : World) (resp : UploadResponse) (w1 : World) :
  upload_pdf env file w = (Ok resp, w1) ->
  let id := up_pdf_id resp in
  let path := storage_file env id in
  exists w2,
    delete_pdf id w1 = (Ok ("PDF " +:+ id +:+ " deleted successfully"), w2)
    /\ disk w2 = delete path (disk w)
    /\ pdf_storage w2 = delete id (pdf_storage w)
    /\ doc_storage w2 = delete id (doc_storage w)
    /\ (pdf_storage w !! id = None -> doc_storage w !! id = None -> disk w !! path = None ->
        pdf_storage w2 = pdf_storage w /\ doc_storage w2 = doc_storage w /\ disk w2 = disk w).
Proof.
  intros Hup id path.
  destruct (upload_pdf_ok_inv env file w resp w1 Hup) as (_ & _ & -> & d & _ & ->).
  subst id path. cbn [up_pdf_id].
  set (id := fresh_id env w). set (path := storage_file env id).
  eexists. split.
  { apply delete_pdf_known. cbn. apply lookup_insert_eq. }
  cbn [pdf_storage doc_storage disk with_doc_storage with_pdf_storage with_disk
       with_event with_draw file_path].
  rewrite !delete_insert_eq.
  repeat (split; [done|]).
  intros Hp Hd Hf. by rewrite !delete_id.
Qed.

(** ** What a chat request does and does not do *)

Lemma grows_ret {A} (a : A) : grows_log (mret a).
Proof. intros w. exists []. cbn. by rewrite app_nil_r. Qed.

Lemma grows_raise {A} e : grows_log (raise (A:=A) e).
Proof. intros w. exists []. cbn. by rewrite app_nil_r. Qed.

Lemma grows_lift {A} (r : result A) : grows_log (lift r).
Proof. intros w. exists []. cbn. by rewrite app_nil_r. Qed.

Lemma grows_gets {A} (f : World -> A) : grows_log (gets f).
Proof. intros w. exists []. cbn. by rewrite app_nil_r. Qed.

Lemma grows_bind {A B} (m : M A) (k : A -> M B) :
  grows_log m -> (forall a, grows_log (k a)) -> grows_log (m ≫= k).
Proof.
  intros Hm Hk w. unfold mbind, M_bind, bind.
  destruct (Hm w) as [rest Hrest]. destruct (m w) as [[a|e] w1]; cbn in *; [|by exists rest].
  destruct (Hk a w1) as [rest' Hrest']. exists (rest ++ rest').
  by rewrite Hrest', Hrest, app_assoc.
Qed.

Lemma grows_try_except {A} (m : M A) (h : exn -> M A) :
  grows_log m -> (forall e, grows_log (h e)) -> grows_log (try_except m h).
Proof.
  intros Hm Hh w. unfold try_except.
  destruct (Hm w) as [rest Hrest]. destruct (m w) as [[a|e] w1]; cbn in *; [by exists rest|].
  destruct (Hh e w1) as [rest' Hrest']. exists (rest ++ rest').
  by rewrite Hrest', Hrest, app_assoc.
Qed.

Lemma grows_uuid4 env : grows_log (uuid4 env).
Proof. intros w. exists []. cbn. by rewrite app_nil_r. Qed.

Lemma grows_datetime_utcnow env : grows_log (datetime_utcnow env).
Proof. intros w. exists []. cbn. by rewrite app_nil_r. Qed.

Lemma grows_pi_is_retrieval_ready env d : grows_log (pi_is_retrieval_ready env d).
Proof. intros w. by eexists. Qed.

Lemma grows_pi_get_tree env d : grows_log (pi_get_tree env d).
Proof. intros w. by eexists. Qed.

Lemma grows_telkomllm_call env prompt max_tokens temperature :
  grows_log (telkomllm_call env prompt max_tokens temperature).
Proof.
  intros w.
  destruct (telkomllm_call_returns env prompt max_tokens temperature w)
    as (out & w' & -> & _ & _ & _ & _ & [Hlog | Hlog]); by eexists.
Qed.

Create HintDb grows.
#[local] Hint Resolve grows_ret grows_raise grows_lift grows_gets grows_uuid4
  grows_datetime_utcnow grows_pi_is_retrieval_ready grows_pi_get_tree
  grows_telkomllm_call : grows.

Ltac grows_step :=
  match goal with
  | |- grows_log (_ ≫= _) => apply grows_bind; [|intros ?]
  | |- grows_log (try_except _ _) => apply grows_try_except; [|intros ?]
  | |- grows_log (if ?b then _ else _) => destruct b
  | |- grows_log (match ?x with _ => _ end) => destruct x
  | |- grows_log _ => solve [eauto with grows]
  end.

Lemma grows_chat_try env req tree sid : grows_log (chat_try env req tree sid).
Proof. unfold chat_try. cbn zeta. repeat grows_step. Qed.

Lemma grows_chat_with_pdf env req : grows_log (chat_with_pdf env req).
Proof. unfold chat_with_pdf. repeat grows_step. apply grows_chat_try. Qed.

(** X6. Whatever its outcome, a chat request leaves [pdf_storage],
    [doc_storage] and the files on disk as they were, and the calls it
    makes are appended to those made before. *)
Theorem chat_changes_neither_stores_nor_disk (env : Env) (req : ChatRequest) (w : World) :
  let w' := snd (chat_with_pdf env req w) in
  pdf_storage w' = pdf_storage w
  /\ doc_storage w' = doc_storage w
  /\ disk w' = disk w
  /\ exists calls, log w' = log w ++ calls.
Proof.
  cbn zeta. destruct (keeps_chat_with_pdf env req w) as (Hp & Hd & Hf).
  repeat (split; [done|]). apply grows_chat_with_pdf.
Qed.

(** X7. Once a chat request has reached the [try] block, it either
    succeeds or ends with the 500 of the handler: whatever is raised
    between the two LLM calls, by the parsing, the lookups or the response
    model, never leaves the handler as it is. *)
Theorem chat_failure_in_try_is_500
    (env : Env) (req : ChatRequest) (w : World) (tree : list TreeNode)
    (sid : string) (w1 : World) :
  chat_reaches_try env req w tree sid w1 ->
  (exists resp, fst (chat_with_pdf env req w) = Ok resp)
  \/ (exists e,
        fst (chat_with_pdf env req w)
        = Raise (HTTPException 500 (JStr ("Error processing query: " +:+ exn_str env e)))).
Proof.
  intros Hreach. rewrite (chat_with_pdf_try _ _ _ _ _ _ Hreach). unfold try_except.
  destruct (chat_try env req tree sid w1) as [[resp|e] w2]; [left | right]; by eexists.
Qed.

(** The answer-synthesis half of the [try] block, for a context. *)
Lemma chat_try_answer env req tree sid w out w2 ctx answer w3 :
  telkomllm_call env (selection_prompt env req tree)
    (LLM_MAX_TOKENS (settings env)) (LLM_TEMPERATURE (settings env)) w = (Ok out, w2) ->
  relevant_content env tree out = Ok ctx ->
  telkomllm_call env (answer_prompt (message req) ctx)
    (LLM_MAX_TOKENS (settings env)) (LLM_TEMPERATURE (settings env)) w2 = (Ok answer, w3) ->
  chat_try env req tree sid w =
  match print_wrapped env answer with
  | Raise e => (Raise e, w3)
  | Ok _ =>
      if is_error answer then
        match getitem answer "error" with
        | Ok detail => (Raise (HTTPException 500 detail), w3)
        | Raise e => (Raise e, w3)
        end
      else
        match answer with
        | JStr text =>
            (Ok {| response := text; chat_session_id := sid;
                   timestamp := utcnow env (length (log w3)) |}, w3)
        | _ => (Raise ValidationError, w3)
        end
  end.
Proof.
  intros Hsel Hctx Hans. unfold chat_try. cbn zeta.
  unfold mbind at 1. unfold M_bind, bind at 1.
  unfold selection_prompt in Hsel. rewrite Hsel.
  unfold mbind at 1. unfold M_bind, bind at 1, lift at 1. rewrite Hctx.
  unfold mbind at 1. unfold M_bind, bind at 1. rewrite Hans.
  unfold mbind, M_bind, bind, lift, raise, mret, M_ret, ret, datetime_utcnow, gets.
  destruct (print_wrapped env answer); [|done].
  destruct (is_error answer).
  - by destruct (getitem answer "error").
  - by destruct answer.
Qed.

(** X8. A chat request that reaches the [try] block, whose selection
    reply resolves to a context and whose answer call returns a string,
    succeeds: the response carries that string unchanged and the session
    id of the request, or the id drawn for it when the request had none or
    an empty one. *)
Theorem chat_success_returns_answer_text
    (env : Env) (req : ChatRequest) (w : World) (tree : list TreeNode)
    (sid : string) (w1 : World) (out : json) (w2 : World) (ctx text : string) (w3 : World) :
  chat_reaches_try env req w tree sid w1 ->
  telkomllm_call env (selection_prompt env req tree)
    (LLM_MAX_TOKENS (settings env)) (LLM_TEMPERATURE (settings env)) w1 = (Ok out, w2) ->
  relevant_content env tree out = Ok ctx ->
  telkomllm_call env (answer_prompt (message req) ctx)
    (LLM_MAX_TOKENS (settings env)) (LLM_TEMPERATURE (settings env)) w2 = (Ok (JStr text), w3) ->
  print_wrapped env (JStr text) = Ok tt ->
  chat_with_pdf env req w =
    (Ok {| response := text; chat_session_id := sid;
           timestamp := utcnow env (length (log w3)) |}, w3)
  /\ match session_id req with
     | Some (String c s) => sid = String c s /\ draws w3 = draws w
     | _ => sid = fresh_id env w /\ draws w3 = S (draws w)
     end.
Proof.
  intros Hreach Hsel Hctx Hans Hpw. split.
  - rewrite (chat_with_pdf_try _ _ _ _ _ _ Hreach). unfold try_except.
    rewrite (chat_try_answer _ _ _ sid _ _ _ _ _ _ Hsel Hctx Hans), Hpw. done.
  - destruct (telkomllm_call_returns env (selection_prompt env req tree)
                (LLM_MAX_TOKENS (settings env)) (LLM_TEMPERATURE (settings env)) w1)
      as (? & ? & Hsel' & _ & _ & _ & Hd2 & _).
    rewrite Hsel in Hsel'. injection Hsel' as <- <-.
    destruct (telkomllm_call_returns env (answer_prompt (message req) ctx)
                (LLM_MAX_TOKENS (settings env)) (LLM_TEMPERATURE (settings env)) w2)
      as (? & ? & Hans' & _ & _ & _ & Hd3 & _).
    rewrite Hans in Hans'. injection Hans' as <- <-.
    destruct Hreach as (info & _ & _ & _ & _ & Hsid). cbn zeta in Hsid.
    unfold uuid4, fresh_id in *. rewrite Hd3, Hd2.
    destruct (session_id req) as [[|c s]|].
    + injection Hsid as <- <-. done.
    + destruct Hsid as [-> ->]. done.
    + injection Hsid as <- <-. done.
Qed.

Lemma chat_try_ok_inv env req tree sid w resp w' :
  chat_try env req tree sid w = (Ok resp, w') ->
  exists out w2 ctx,
    telkomllm_call env (selection_prompt env req tree)
      (LLM_MAX_TOKENS (settings env)) (LLM_TEMPERATURE (settings env)) w = (Ok out, w2)
    /\ relevant_content env tree out = Ok ctx
    /\ telkomllm_call env (answer_prompt (message req) ctx)
         (LLM_MAX_TOKENS (settings env)) (LLM_TEMPERATURE (settings env)) w2
       = (Ok (JStr (response resp)), w')
    /\ print_wrapped env (JStr (response resp)) = Ok tt
    /\ chat_session_id resp = sid.
Proof.
  intros Hrun.
  destruct (telkomllm_call_returns env (selection_prompt env req tree)
              (LLM_MAX_TOKENS (settings env)) (LLM_TEMPERATURE (settings env)) w)
    as (out & w2 & Hsel & _).
  destruct (relevant_content env tree out) as [ctx|e] eqn:Hctx.
  2:{ rewrite (chat_try_selection_fails _ _ _ sid _ _ _ _ Hsel Hctx) in Hrun. done. }
  destruct (telkomllm_call_returns env (answer_prompt (message req) ctx)
              (LLM_MAX_TOKENS (settings env)) (LLM_TEMPERATURE (settings env)) w2)
    as (answer & w3 & Hans & _).
  rewrite (chat_try_answer _ _ _ sid _ _ _ _ _ _ Hsel Hctx Hans) in Hrun.
  destruct (print_wrapped env answer) as [[]|] eqn:Hpw; [|done].
  destruct (is_error answer).
  { by destruct (getitem answer "error"). }
  destruct answer; try done. injection Hrun as <- <-.
  exists out, w2, ctx. done.
Qed.

(** X9. A chat request succeeds only when every stage did: the PDF is
    stored, the document service reported it ready and delivered a tree,
    the selection reply parsed and every id of it resolved to a node with
    text, and the answer call returned a string. That string is the
    response: an error indicator or any other value in its place never
    yields a success. *)
Theorem chat_success_only_through_both_stages
    (env : Env) (req : ChatRequest) (w : World) (resp : ChatResponse) (w' : World) :
  chat_with_pdf env req w = (Ok resp, w') ->
  exists tree sid w1 out w2 ctx,
    chat_reaches_try env req w tree sid w1
    /\ telkomllm_call env (selection_prompt env req tree)
         (LLM_MAX_TOKENS (settings env)) (LLM_TEMPERATURE (settings env)) w1 = (Ok out, w2)
    /\ relevant_content env tree out = Ok ctx
    /\ telkomllm_call env (answer_prompt (message req) ctx)
         (LLM_MAX_TOKENS (settings env)) (LLM_TEMPERATURE (settings env)) w2
       = (Ok (JStr (response resp)), w')
    /\ chat_session_id resp = sid.
Proof.
  intros Hrun. unfold chat_with_pdf in Hrun.
  unfold mbind at 1 in Hrun. unfold M_bind, bind at 1, gets at 1 in Hrun.
  destruct (pdf_storage w !! pdf_id req) as [info|] eqn:Hpdf; [|done].
  unfold mbind at 1 in Hrun. unfold M_bind, bind at 1, pi_is_retrieval_ready at 1 in Hrun.
  destruct (is_retrieval_ready env (length (log w)) (doc_id info)) as [[|]|] eqn:Hready;
    [|done|done].
  unfold mbind at 1 in Hrun. unfold M_bind, bind at 1 in Hrun.
  unfold mbind at 1 in Hrun. unfold M_bind, bind at 1, pi_get_tree at 1 in Hrun.
  cbn [log with_event] in Hrun. rewrite length_app, Nat.add_1_r in Hrun. cbn [length] in Hrun.
  destruct (get_tree env (S (length (log w))) (doc_id info)) as [tree|] eqn:Htree; [|done].
  unfold mbind at 1 in Hrun. unfold M_bind, bind at 1, lift at 1 in Hrun.
  destruct (print_tree env tree) as [[]|] eqn:Hprint; [|done].
  unfold mret at 1 in Hrun. unfold M_ret, ret at 1 in Hrun.
  unfold mbind at 1 in Hrun. unfold M_bind, bind at 1 in Hrun.
  set (w0 := with_event (EvTree (doc_id info)) (with_event (EvReady (doc_id info)) w)) in *.
  assert (exists sid w1,
             match session_id req with
             | Some (String c s) => sid = String c s /\ w1 = w0
             | _ => uuid4 env w0 = (Ok sid, w1)
             end
             /\ try_except (chat_try env req tree sid)
                  (fun e => raise (HTTPException 500
                                     (JStr ("Error processing query: " +:+ exn_str env e)))) w1
                = (Ok resp, w')) as (sid & w1 & Hsid & Htry).
  { destruct (session_id req) as [[|c s]|]; cbn in Hrun; eexists _, _; split; try exact Hrun; done. }
  unfold try_except in Htry.
  destruct (chat_try env req tree sid w1) as [[resp'|e] wx] eqn:Hbody; [|done].
  injection Htry as -> ->.
  destruct (chat_try_ok_inv _ _ _ _ _ _ _ Hbody) as (out & w2 & ctx & Hsel & Hctx & Hans & _ & Hs).
  exists tree, sid, w1, out, w2, ctx. split; [|done].
  exists info. done.
Qed.


(** X11. Both keys of the selection reply are needed: when the reply
    parses to a dict without [thinking], or with a printable [thinking]
    but without [node_list], the request ends with the 500 of the handler
    over the [KeyError] of the missing key, and the answer prompt is never
    posted. *)
Theorem chat_reply_missing_key_fails
    (env : Env) (req : ChatRequest) (w : World) (tree : list TreeNode)
    (sid : string) (w1 : World) (out : json) (w2 : World)
    (members : list (string * json)) (key : string) :
  chat_reaches_try env req w tree sid w1 ->
  telkomllm_call env (selection_prompt env req tree)
    (LLM_MAX_TOKENS (settings env)) (LLM_TEMPERATURE (settings env)) w1 = (Ok out, w2) ->
  loads env out = Ok (JObj members) ->
  (key = "thinking" /\ dict_get members "thinking" = None)
  \/ (key = "node_list" /\ dict_get members "node_list" = None
      /\ exists th, dict_get members "thinking" = Some th /\ print_wrapped env th = Ok tt) ->
  chat_with_pdf env req w =
    (Raise (HTTPException 500
              (JStr ("Error processing query: " +:+ exn_str env (KeyError (JStr key))))), w2)
  /\ forall ctx,
      chat_payload env (answer_prompt (message req) ctx)
        ∉ drop (length (posts (log w))) (posts (log w2)).
Proof.
  intros Hreach Hsel Hloads Hmissing.
  assert (Hctx : relevant_content env tree out = Raise (KeyError (JStr key))).
  { unfold relevant_content. cbn zeta. rewrite Hloads. cbn.
    destruct Hmissing as [[-> Hth] | (-> & Hlist & th & Hth & Hpw)]; rewrite Hth; cbn; [done|].
    rewrite Hpw. cbn. by rewrite Hlist. }
  destruct (chat_fails_before_synthesis _ _ _ _ _ _ _ _ _ Hreach Hsel Hctx)
    as (Hrun & _ & _ & Hnone).
  done.
Qed.

(** X12. A [node_list] that cannot be iterated (null, a boolean or a
    number), or that holds an item which is not a string, fails the request
    with the 500 of the handler before the answer call: such an item is
    never skipped. *)
Theorem chat_ill_typed_node_list_fails
    (env : Env) (req : ChatRequest) (w : World) (tree : list TreeNode)
    (sid : string) (w1 : World) (out : json) (w2 : World) (j l : json) :
  chat_reaches_try env req w tree sid w1 ->
  telkomllm_call env (selection_prompt env req tree)
    (LLM_MAX_TOKENS (settings env)) (LLM_TEMPERATURE (settings env)) w1 = (Ok out, w2) ->
  loads env out = Ok j ->
  getitem j "node_list" = Ok l ->
  (l = JNull \/ (exists b, l = JBool b) \/ (exists n, l = JNum n)
   \/ exists items k, l = JArr items /\ k ∈ items /\ forall s, k <> JStr s) ->
  exists e,
    chat_with_pdf env req w =
      (Raise (HTTPException 500 (JStr ("Error processing query: " +:+ exn_str env e))), w2)
    /\ forall ctx,
        chat_payload env (answer_prompt (message req) ctx)
          ∉ drop (length (posts (log w))) (posts (log w2)).
Proof.
  intros Hreach Hsel Hloads Hlist Hbad.
  assert (exists e, relevant_content env tree out = Raise e) as [e Hctx].
  { unfold relevant_content. cbn zeta. rewrite Hloads. cbn.
    destruct (getitem j "thinking") as [th|]; cbn; [|by eexists].
    destruct (print_wrapped env th) as [[]|]; cbn; [|by eexists].
    rewrite Hlist. cbn.
    destruct Hbad as [-> | [[b ->] | [[n ->] | (items & k & -> & Hk & Hnot)]]];
      cbn; try by eexists.
    assert (exists e0, node_map_getitem (create_node_mapping tree) k = Raise e0) as [e0 He0].
    { destruct k; cbn; try by eexists. by destruct (Hnot s). }
    destruct (retrieved_nodes_raise _ _ _ _ Hk He0) as [e1 ->]. cbn. by eexists. }
  exists e.
  destruct (chat_fails_before_synthesis _ _ _ _ _ _ _ _ _ Hreach Hsel Hctx)
    as (Hrun & _ & _ & Hnone).
  done.
Qed.

(** X13. The id that an accepted upload returns is the key for the chat
    that follows: such a chat is not a 404 but starts by asking the
    document service whether the document id that the submission returned
    is ready, and while the service says no it is answered with the 400. *)
Theorem upload_then_chat_asks_for_returned_document
    (env : Env) (file : UploadFile) (w : World) (resp : UploadResponse) (w1 : World)
    (question : string) (sid : option string) :
  upload_pdf env file w = (Ok resp, w1) ->
  let req := {| message := question; pdf_id := up_pdf_id resp; session_id := sid |} in
  exists d,
    processed env w (storage_file env (fresh_id env w)) (upload_content file) = Ok d
    /\ doc_storage w1 !! up_pdf_id resp = Some d
    /\ (exists calls, log (snd (chat_with_pdf env req w1)) = log w1 ++ EvReady d :: calls)
    /\ (is_retrieval_ready env (length (log w1)) d = Ok false ->
        fst (chat_with_pdf env req w1)
        = Raise (HTTPException 400
                   (JStr "Document is still processing, please try again later."))).
Proof.
  intros Hup req.
  destruct (upload_pdf_ok_inv env file w resp w1 Hup) as (_ & _ & Hresp & d & Hproc & Hw1).
  exists d. split; [exact Hproc|].
  set (info := {| filename := upload_filename file;
                  file_path := storage_file env (fresh_id env w);
                  doc_id := d; upload_time := utcnow env (S (length (log w))) |}).
  assert (Hpdf : pdf_storage w1 !! pdf_id req = Some info).
  { subst req. rewrite Hresp, Hw1. cbn. apply lookup_insert_eq. }
  split; [rewrite Hresp, Hw1; cbn; apply lookup_insert_eq|].
  split.
  - unfold chat_with_pdf.
    unfold mbind at 1. unfold M_bind, bind at 1, gets at 1. rewrite Hpdf.
    match goal with
    | |- context [(pi_is_retrieval_ready env (doc_id info) ≫= ?k) w1] =>
        assert (Hrest : forall a, grows_log (k a))
    end.
    { intros ready. repeat grows_step. apply grows_chat_try. }
    unfold mbind at 1. unfold M_bind, bind at 1, pi_is_retrieval_ready at 1.
    destruct (is_retrieval_ready env (length (log w1)) (doc_id info)) as [ready|e].
    + destruct (Hrest ready (with_event (EvReady (doc_id info)) w1)) as [calls Hcalls].
      exists calls. rewrite Hcalls. cbn. by rewrite <- app_assoc.
    + exists []. done.
  - intros Hnot. unfold chat_with_pdf.
    unfold mbind at 1. unfold M_bind, bind at 1, gets at 1. rewrite Hpdf.
    unfold mbind at 1. unfold M_bind, bind at 1, pi_is_retrieval_ready at 1.
    change (doc_id info) with d. rewrite Hnot.
    unfold mbind at 1. unfold M_bind, bind at 1. done.
Qed.

(** ** The endpoint's answer *)

(** X14. What a call makes of a 200 response: the value at
    [choices[0].message.content] of the body is returned as it is, and a
    body that is not JSON, has no [choices] or an empty [choices] list
    gives an error indicator instead of an exception, so that
    [telkomllm_call] tries once more. *)
Theorem api_call_reads_content_or_reports
    (env : Env) (url token : string) (payload : Payload) (w : World) (r : Response) :
  client_post env (length (log w)) url token payload = Ok r ->
  status_code r = 200 ->
  exists v,
    make_async_api_call env url token payload w = (Ok v, with_event (EvPost url token payload) w)
    /\ (forall j choice rest msg content,
           json_loads env (body r) = Some j ->
           getitem j "choices" = Ok (JArr (choice :: rest)) ->
           getitem choice "message" = Ok msg ->
           getitem msg "content" = Ok content ->
           v = content)
    /\ (json_loads env (body r) = None ->
        v = error_dict (exn_str env JSONDecodeError) /\ is_error v = true)
    /\ (forall members,
           json_loads env (body r) = Some (JObj members) ->
           dict_get members "choices" = None ->
           v = error_dict (exn_str env (KeyError (JStr "choices"))) /\ is_error v = true)
    /\ (forall j,
           json_loads env (body r) = Some j ->
           getitem j "choices" = Ok (JArr []) ->
           v = error_dict (exn_str env IndexError) /\ is_error v = true).
Proof.
  intros Hpost Hstatus. eexists. split; [apply make_async_api_call_run|].
  unfold attempt. rewrite Hpost, Hstatus. cbn [Z.eqb Pos.eqb].
  unfold response_content. split; [|split; [|split]].
  - intros j choice rest msg content -> -> Hmsg Hcontent. cbn. by rewrite Hmsg, Hcontent.
  - by intros ->.
  - intros members -> Hnone. cbn. by rewrite Hnone.
  - intros j -> ->. done.
Qed.

(** X15. When the endpoint fails at both attempts of the node-selection
    call, the chat request ends with the 500 of the handler over a
    [TypeError] (the error indicator is not a string to parse) after
    exactly two POSTs of the selection prompt; the answer call is not
    attempted. *)
Theorem chat_endpoint_down_fails_after_one_retry
    (env : Env) (req : ChatRequest) (w : World) (tree : list TreeNode)
    (sid : string) (w1 : World) (e1 e2 : exn) :
  chat_reaches_try env req w tree sid w1 ->
  let sel := chat_payload env (selection_prompt env req tree) in
  client_post env (length (log w1)) (URL_CUSTOM_LLM (settings env))
    (TOKEN_CUSTOM_LLM (settings env)) sel = Raise e1 ->
  client_post env (S (length (log w1))) (URL_CUSTOM_LLM (settings env))
    (TOKEN_CUSTOM_LLM (settings env)) sel = Raise e2 ->
  exists w2,
    chat_with_pdf env req w =
      (Raise (HTTPException 500
                (JStr ("Error processing query: " +:+ exn_str env TypeError))), w2)
    /\ log w2 = log w1 ++ [llm_post env sel; llm_post env sel]
    /\ posts (log w2) = posts (log w) ++ [sel; sel].
Proof.
  intros Hreach sel Hfirst Hsecond.
  pose proof (telkomllm_call_run env (selection_prompt env req tree)
                (LLM_MAX_TOKENS (settings env)) (LLM_TEMPERATURE (settings env)) w1) as Hrun.
  cbn zeta in Hrun. fold (chat_payload env (selection_prompt env req tree)) in Hrun.
  fold sel in Hrun. unfold llm_attempt, attempt in Hrun.
  rewrite Hfirst, Hsecond in Hrun. cbn [is_error error_dict dict_has dict_get String.eqb] in Hrun.
  assert (Hctx : relevant_content env tree (error_dict (exn_str env e2)) = Raise TypeError).
  { reflexivity. }
  destruct (chat_fails_before_synthesis _ _ _ _ _ _ _ _ _ Hreach Hrun Hctx) as (Hchat & _).
  eexists. split; [exact Hchat|].
  destruct (chat_reaches_try_posts _ _ _ _ _ _ Hreach) as (Hposts & _).
  cbn [log with_event]. split; [by rewrite <- app_assoc|].
  rewrite !posts_app, Hposts, <- app_assoc. done.
Qed.

(** X16. When the answer call comes back with an error indicator, the
    request fails with the 500 of the [except] block in every case. The
    indicator is first handed to [print_wrapped] (line 201): when that
    helper raises on it, as it does for a dict, this exception is the one
    that is wrapped and the test of line 204 is never reached. Only when
    the helper returns is the [HTTPException] of line 206 raised, and it is
    then itself caught by the [except] block and wrapped again, so that
    the detail of the response is the text of that exception and not the
    [error] entry. *)
Theorem chat_answer_error_indicator_fails
    (env : Env) (req : ChatRequest) (w : World) (tree : list TreeNode)
    (sid : string) (w1 : World) (out : json) (w2 : World) (ctx : string)
    (answer : json) (w3 : World) :
  chat_reaches_try env req w tree sid w1 ->
  telkomllm_call env (selection_prompt env req tree)
    (LLM_MAX_TOKENS (settings env)) (LLM_TEMPERATURE (settings env)) w1 = (Ok out, w2) ->
  relevant_content env tree out = Ok ctx ->
  telkomllm_call env (answer_prompt (message req) ctx)
    (LLM_MAX_TOKENS (settings env)) (LLM_TEMPERATURE (settings env)) w2 = (Ok answer, w3) ->
  is_error answer = true ->
  exists e,
    chat_with_pdf env req w =
      (Raise (HTTPException 500 (JStr ("Error processing query: " +:+ exn_str env e))), w3)
    /\ match print_wrapped env answer with
       | Raise raised => e = raised
       | Ok _ => exists detail, getitem answer "error" = Ok detail /\ e = HTTPException 500 detail
       end.
Proof.
  intros Hreach Hsel Hctx Hans Herr.
  rewrite (chat_with_pdf_try _ _ _ _ _ _ Hreach). unfold try_except.
  rewrite (chat_try_answer _ _ _ sid _ _ _ _ _ _ Hsel Hctx Hans), Herr.
  assert (exists detail, getitem answer "error" = Ok detail) as [detail Hdetail].
  { destruct answer; try done. cbn in *. unfold dict_has in Herr.
    destruct (dict_get members "error"); [by eexists | done]. }
  rewrite Hdetail.
  destruct (print_wrapped env answer) as [[]|e0]; eexists; (split; [done|]).
  - by exists detail.
  - done.
Qed.

(** ** Uploads *)

(** X17. The four ways an upload ends, and when: a 400 for an upload that
    fails a check; the [OSError] of a failed write as it is, with both
    dicts untouched and the document service not called; a 500 when the
    service fails on the stored file; a success otherwise. No upload ever
    posts to the LLM endpoint. *)
Theorem upload_outcomes (env : Env) (file : UploadFile) (w : World) :
  let path := storage_file env (fresh_id env w) in
  let r := fst (upload_pdf env file w) in
  let w' := snd (upload_pdf env file w) in
  posts (log w') = posts (log w)
  /\ ((valid_upload env file = false
       /\ w' = w /\ exists detail, r = Raise (HTTPException 400 (JStr detail)))
      \/ (valid_upload env file = true
          /\ disk_write env (length (log w)) path <> Written
          /\ r = Raise OSError
          /\ pdf_storage w' = pdf_storage w /\ doc_storage w' = doc_storage w
          /\ log w' = log w)
      \/ (valid_upload env file = true
          /\ disk_write env (length (log w)) path = Written
          /\ exists e,
              processed env w path (upload_content file) = Raise e
              /\ r = Raise (HTTPException 500
                              (JStr ("Error processing PDF: " +:+ exn_str env e))))
      \/ (valid_upload env file = true
          /\ disk_write env (length (log w)) path = Written
          /\ exists d,
              processed env w path (upload_content file) = Ok d
              /\ r = Ok {| up_pdf_id := fresh_id env w;
                           up_filename := upload_filename file;
                           up_status := "success" |}
              /\ pdf_storage w' !! fresh_id env w
                 = Some {| filename := upload_filename file; file_path := path;
                           doc_id := d;
                           upload_time := utcnow env (S (length (log w))) |}
              /\ disk w' !! path = Some (upload_content file))).
Proof.
  intros path r w'. subst r w'.
  destruct (valid_upload env file) eqn:Hvalid.
  - pose proof (upload_pdf_accepts env file w Hvalid) as Hrun. cbn zeta in Hrun.
    fold path in Hrun. rewrite Hrun.
    destruct (disk_write env (length (log w)) path) eqn:Hwrite.
    + destruct (processed env w path (upload_content file)) as [d|e] eqn:Hproc.
      * split; [cbn; rewrite posts_app; cbn; by rewrite app_nil_r|].
        right. right. right. repeat (split; [done|]). exists d.
        repeat (split; [done|]). cbn. by rewrite !lookup_insert_eq.
      * split; [cbn; rewrite posts_app; cbn; by rewrite app_nil_r|].
        right. right. left. repeat (split; [done|]). by exists e.
    + split; [done|]. right. left. done.
    + split; [done|]. right. left. done.
  - destruct (upload_pdf_rejects env file w Hvalid) as [detail ->].
    split; [done|]. left. repeat (split; [done|]). by exists detail.
Qed.

Lemma records_in_storage_same env w w' :
  pdf_storage w' = pdf_storage w -> records_in_storage env w -> records_in_storage env w'.
Proof. unfold records_in_storage. by intros ->. Qed.

Lemma records_in_storage_handle env rq w :
  records_in_storage env w -> records_in_storage env (snd (handle env rq w)).
Proof.
  intros Hinv. destruct rq as [file | req | id]; cbn [handle].
  - destruct (valid_upload env file) eqn:Hvalid.
    + pose proof (upload_pdf_accepts env file w Hvalid) as Hrun. cbn zeta in Hrun.
      rewrite Hrun.
      destruct (disk_write env _ _); [|by apply (records_in_storage_same env w)..].
      destruct (processed env w _ _) as [d|e]; cbn [snd];
        [|by apply (records_in_storage_same env w)].
      intros k info. cbn [pdf_storage with_pdf_storage with_doc_storage with_event
                            with_disk with_draw].
      destruct (decide (k = fresh_id env w)) as [-> | Hne].
      * rewrite lookup_insert_eq. intros [= <-]. cbn.
        split; [by exists (draws w)|]. split; [done|].
        apply extension_check_spec. unfold valid_upload in Hvalid.
        by apply andb_true_iff in Hvalid as [-> _].
      * rewrite lookup_insert_ne by done. apply Hinv.
    + destruct (upload_pdf_rejects env file w Hvalid) as [detail ->]. done.
  - pose proof (keeps_chat_with_pdf env req w) as (Hp & _).
    destruct (chat_with_pdf env req w) as [r w']. cbn in *.
    by apply (records_in_storage_same env w).
  - destruct (pdf_storage w !! id) as [info|] eqn:Hid.
    + rewrite (delete_pdf_known _ _ _ Hid). cbn.
      intros k info'. cbn. intros [_ Hk]%lookup_delete_Some. by apply Hinv.
    + rewrite (delete_pdf_unknown _ _ Hid). done.
Qed.

(** X18. Whatever requests are served from the start, every record of
    [pdf_storage] sits under a generated id, its [file_path] is the file of
    that id in the upload directory, which is the directory followed by 36
    characters and ".pdf" with no separator among them, and its [filename]
    ends in a spelling of ".pdf". The file name of an upload thus never
    decides which file a later delete removes. *)
Theorem records_point_into_upload_directory
    (env : Env) (files : gmap string (list Byte.byte)) (rqs : list request)
    (id : string) (info : PdfInfo) :
  pdf_storage (serve env rqs (boot files)) !! id = Some info ->
  file_path info = storage_dir env +:+ id +:+ ".pdf"
  /\ String.length id = 36%nat
  /\ Forall (fun c => c <> "/"%char) (list_ascii_of_string (id +:+ ".pdf"))
  /\ ends_in_pdf (filename info).
Proof.
  assert (Hinv : records_in_storage env (serve env rqs (boot files))).
  { unfold serve.
    assert (Hboot : records_in_storage env (boot files)).
    { intros k i Hk. cbn in Hk. by rewrite lookup_empty in Hk. }
    revert Hboot. generalize (boot files).
    induction rqs as [|rq rqs IH]; intros w Hw; cbn; [done|].
    by apply IH, records_in_storage_handle. }
  intros Hid. destruct (Hinv id info Hid) as ([k ->] & Hpath & Hname).
  destruct (uuid_str_no_separator (uuid4_int (urandom env k))) as [Hlen Hsep].
  rewrite Hpath. split; [by apply storage_file_path|]. done.
Qed.

(** X19. The two checks of an upload in their order: a name without the
    extension is refused as such whatever the size; a name with it is
    refused for its size exactly when the content is longer than
    [MAX_FILE_SIZE], so that a file of exactly that many bytes is not. *)
Theorem upload_checks_extension_first_size_inclusive
    (env : Env) (file : UploadFile) (w : World) :
  (~ ends_in_pdf (upload_filename file) ->
   upload_pdf env file w
   = (Raise (HTTPException 400 (JStr "Only PDF files are allowed")), w))
  /\ (ends_in_pdf (upload_filename file) ->
      MAX_FILE_SIZE (settings env) < Z.of_nat (length (upload_content file)) ->
      upload_pdf env file w
      = (Raise (HTTPException 400 (JStr "File size exceeds maximum allowed size")), w))
  /\ (ends_in_pdf (upload_filename file) ->
      Z.of_nat (length (upload_content file)) <= MAX_FILE_SIZE (settings env) ->
      forall detail, fst (upload_pdf env file w) <> Raise (HTTPException 400 detail)).
Proof.
  split; [|split].
  - intros Hext. unfold upload_pdf.
    destruct (endswith (lower (upload_filename file)) ".pdf") eqn:Hends; [|done].
    by apply extension_check_spec in Hends.
  - intros Hext%extension_check_spec Hbig. unfold upload_pdf. rewrite Hext. cbn [negb].
    apply Z.gtb_lt in Hbig. by rewrite Hbig.
  - intros Hext%extension_check_spec Hfits detail.
    assert (Hvalid : valid_upload env file = true).
    { unfold valid_upload. rewrite Hext. cbn [andb]. apply negb_true_iff.
      destruct (Z.gtb_spec (Z.of_nat (length (upload_content file)))
                  (MAX_FILE_SIZE (settings env))); [lia | done]. }
    rewrite (upload_pdf_accepts env file w Hvalid).
    destruct (disk_write env _ _); [|done|done].
    by destruct (processed env w _ _).
Qed.

(** *** The retrieval protocol on the two-leaf tree *)

Import Demo Scenes.

Lemma telkomllm_call_error_indicator_single_retry_witness :
  exists second w2,
    telkomllm_call flaky "Hello" 3000 0%Q world_p1 = (Ok second, w2)
    /\ second = JStr reply_answer
    /\ log w2 = [llm_post flaky (llm_payload "Hello" 3000 0%Q);
                 llm_post flaky (llm_payload "Hello" 3000 0%Q)].
Proof.
  destruct (telkomllm_call_error_indicator_single_retry flaky "Hello" 3000 0%Q world_p1)
    as (_ & first & w1 & Hfirst & _ & Hretry & _).
  rewrite make_async_api_call_run in Hfirst. injection Hfirst as <- <-.
  destruct (Hretry eq_refl) as (second & w2 & Hsecond & Hcall & Hlog).
  exists second, w2. split; [exact Hcall|]. split; [|exact Hlog].
  rewrite make_async_api_call_run in Hsecond. injection Hsecond as <- _. reflexivity.
Defined.

Lemma ask_reaches_try e :
  is_retrieval_ready e = (fun _ _ => Ok true) ->
  get_tree e = (fun _ _ => Ok tree) -> print_tree e = (fun _ => Ok tt) ->
  chat_reaches_try e ask world_p1 tree "s1" at_try.
Proof.
  intros Hready Htree Hprint. exists info_p1.
  rewrite Hready, Htree, Hprint. repeat split.
Defined.

Example context_cat_dog :
  relevant_content (replies reply_AB) tree (JStr reply_AB)
  = Ok ("cat" +:+ nl +:+ nl +:+ "dog").
Proof. reflexivity. Qed.




Lemma demo_tree_occurs n : occurs_in tree n -> n = node_A \/ n = node_B.
Proof.
  intros Hn%all_nodes_occurs. cbn in Hn.
  apply elem_of_cons in Hn as [-> | Hn]; [by left|].
  apply elem_of_cons in Hn as [-> | Hn]; [by right|].
  by apply elem_of_nil in Hn.
Defined.

Lemma context_joins_texts_in_node_list_order_witness :
  relevant_content (replies reply_AB) tree (JStr reply_AB) = Ok "cat

dog".
Proof.
  destruct (context_joins_texts_in_node_list_order (replies reply_AB) tree (JStr reply_AB)
              (selection_json ["A"; "B"]) (JStr "looked at the summaries") ["A"; "B"])
    as (resolved & texts & Hres & Htexts & Hctx & _).
  - reflexivity.
  - reflexivity.
  - reflexivity.
  - reflexivity.
  - repeat constructor.
    + exists node_A. split; [apply occurs_root; repeat constructor | reflexivity].
    + exists node_B. split; [apply occurs_root; repeat constructor | reflexivity].
  - intros n [-> | ->]%demo_tree_occurs; by eexists.
  - apply Forall2_cons_inv_l in Hres as (a & resolved' & (Ha & _) & Hres & ->).
    apply Forall2_cons_inv_l in Hres as (b & resolved'' & (Hb & _) & Hres & ->).
    apply Forall2_nil_inv_l in Hres as ->.
    injection Ha as <-. injection Hb as <-.
    apply Forall2_cons_inv_l in Htexts as (ta & texts' & Hta & Htexts & ->).
    apply Forall2_cons_inv_l in Htexts as (tb & texts'' & Htb & Htexts & ->).
    apply Forall2_nil_inv_l in Htexts as ->.
    injection Hta as <-. injection Htb as <-.
    exact Hctx.
Defined.

(** The reply of the spec's example names two ids of the tree and nothing
    else; the retrieval stops at the missing [thinking] entry, so no
    context is assembled and the request ends with the 500 of the
    handler. *)
Lemma context_without_thinking_counterexample :
  ~ (forall (env : Env) (served : list TreeNode) (out j : json) (ids : list string),
        loads env out = Ok j ->
        getitem j "node_list" = Ok (JArr (JStr <$> ids)) ->
        Forall (fun id => exists n, occurs_in served n /\ node_id n = id) ids ->
        (forall n, occurs_in served n -> is_Some (text n)) ->
        exists texts, relevant_content env served out = Ok (String.concat "

" texts)).
Proof.
  intros Hclaim.
  destruct (Hclaim (Nested.answering tree Nested.reply_ids_only) tree
              (JStr Nested.reply_ids_only)
              (JObj [("node_list", JArr [JStr "A"; JStr "B"])]) ["A"; "B"])
    as [texts Hctx].
  - reflexivity.
  - reflexivity.
  - repeat constructor.
    + exists node_A. split; [apply occurs_root; repeat constructor | reflexivity].
    + exists node_B. split; [apply occurs_root; repeat constructor | reflexivity].
  - intros n [-> | ->]%demo_tree_occurs; by eexists.
  - discriminate Hctx.
Qed.

Example chat_without_thinking_fails :
  relevant_content (Nested.answering tree Nested.reply_ids_only) tree
    (JStr Nested.reply_ids_only) = Raise (KeyError (JStr "thinking"))
  /\ fst (chat_with_pdf (Nested.answering tree Nested.reply_ids_only) ask world_p1)
     = Raise (HTTPException 500 (JStr "Error processing query: 'thinking'")).
Proof. split; reflexivity. Qed.

Lemma chat_unparseable_selection_fails_witness :
  exists e,
    (e = JSONDecodeError \/ e = TypeError)
    /\ chat_with_pdf (replies reply_prose) ask world_p1 =
       (Raise (HTTPException 500
                 (JStr ("Error processing query: " +:+ exn_str (replies reply_prose) e))),
        after_selection (replies reply_prose))
    /\ posts (log (after_selection (replies reply_prose)))
       = [chat_payload (replies reply_prose) (selection_prompt (replies reply_prose) ask tree)].
Proof.
  destruct (chat_unparseable_selection_fails (replies reply_prose) ask world_p1 tree "s1"
              at_try (JStr reply_prose) (after_selection (replies reply_prose)))
    as (e & He & Hrun & _ & Honce & _).
  - by apply ask_reaches_try.
  - reflexivity.
  - intros j. vm_compute. discriminate.
  - exists e. split; [exact He|]. split; [exact Hrun|].
    refine (proj2 (Honce (JStr reply_prose) _ eq_refl eq_refl)).
Defined.

Lemma chat_absent_node_id_fails_witness :
  exists e,
    chat_with_pdf (replies reply_AZ) ask world_p1 =
      (Raise (HTTPException 500
                (JStr ("Error processing query: " +:+ exn_str (replies reply_AZ) e))),
       after_selection (replies reply_AZ))
    /\ e = KeyError (JStr "Z")
    /\ forall ctx,
        chat_payload (replies reply_AZ) (answer_prompt (message ask) ctx)
          ∉ drop (length (posts (log world_p1)))
              (posts (log (after_selection (replies reply_AZ)))).
Proof.
  destruct (chat_absent_node_id_fails (replies reply_AZ) ask world_p1 tree "s1"
              at_try (JStr reply_AZ) (after_selection (replies reply_AZ))
              (selection_json ["A"; "Z"]) (JArr [JStr "A"; JStr "Z"])
              [JStr "A"; JStr "Z"] "Z")
    as (e & Hrun & _ & Hnone & Hkey).
  - by apply ask_reaches_try.
  - reflexivity.
  - reflexivity.
  - reflexivity.
  - reflexivity.
  - repeat constructor.
  - reflexivity.
  - exists e. split; [exact Hrun|]. split; [|exact Hnone].
    apply (Hkey (JStr "looked at the summaries") [JStr "A"] []); try reflexivity.
    repeat constructor.
Defined.

Lemma chat_not_ready_still_processing_witness :
  exists w',
    chat_with_pdf not_ready ask world_p1 =
      (Raise (HTTPException 400
                (JStr "Document is still processing, please try again later.")), w')
    /\ log w' = log world_p1 ++ [EvReady (doc_id info_p1)]
    /\ posts (log w') = posts (log world_p1)
    /\ pdf_storage w' = pdf_storage world_p1 /\ doc_storage w' = doc_storage world_p1
    /\ disk w' = disk world_p1 /\ draws w' = draws world_p1.
Proof.
  apply (chat_not_ready_still_processing not_ready ask world_p1 info_p1); reflexivity.
Defined.

(** *** Uploads into the one-PDF world *)

Import Uploads.

Lemma upload_invalid_rejected_before_write_witness :
  (exists detail,
      upload_pdf accepting notes world_p1 = (Raise (HTTPException 400 (JStr detail)), world_p1))
  /\ (exists detail,
         upload_pdf accepting large world_p1 = (Raise (HTTPException 400 (JStr detail)), world_p1)).
Proof.
  split.
  - apply (upload_invalid_rejected_before_write accepting notes world_p1).
    left. intros Hext. apply extension_check_spec in Hext. discriminate Hext.
  - apply (upload_invalid_rejected_before_write accepting large world_p1).
    right. reflexivity.
Defined.

Lemma upload_processing_failure_cleans_up_witness :
  exists w',
    upload_pdf failing report world_p1 =
      (Raise (HTTPException 500 (JStr "Error processing PDF: 503 Service Unavailable")), w')
    /\ disk w' = delete first_path (<[first_path := upload_content report]> (disk world_p1))
    /\ disk w' !! first_path = None
    /\ (forall other, other <> first_path -> disk w' !! other = disk world_p1 !! other)
    /\ pdf_storage w' = pdf_storage world_p1
    /\ doc_storage w' = doc_storage world_p1.
Proof.
  apply (upload_processing_failure_cleans_up failing report world_p1
           (External "503 Service Unavailable")); reflexivity.
Defined.

Lemma upload_path_independent_of_filename_witness :
  first_path = storage_dir accepting +:+ first_id +:+ ".pdf"
  /\ disk (snd (upload_pdf accepting report world_p1))
     = <[first_path := upload_content report]> (disk world_p1)
  /\ exists w'',
      upload_pdf accepting
        {| upload_filename := "../../etc/passwd.pdf"; upload_content := upload_content report |}
        world_p1
      = (Ok {| up_pdf_id := first_id; up_filename := "../../etc/passwd.pdf";
               up_status := "success" |}, w'')
      /\ disk w'' = disk (snd (upload_pdf accepting report world_p1)).
Proof.
  destruct (upload_path_independent_of_filename accepting report world_p1
              {| up_pdf_id := first_id; up_filename := "Report.PDF"; up_status := "success" |}
              (snd (upload_pdf accepting report world_p1)) eq_refl)
    as (_ & Hpath & _ & Hdisk & _ & _ & Hother).
  split; [exact Hpath|]. split; [exact Hdisk|].
  destruct (Hother "../../etc/passwd.pdf" eq_refl) as (w'' & Hrun & Hd & _).
  exists w''. split; [exact Hrun | exact Hd].
Defined.

Lemma world_p1_agrees : stores_agree world_p1.
Proof.
  split; [reflexivity|].
  intros k info Hk. change (pdf_storage world_p1) with ({[ "p1" := info_p1 ]} : gmap string PdfInfo) in Hk.
  apply lookup_singleton_Some in Hk as [<- <-]. reflexivity.
Defined.

Lemma pdf_and_doc_storage_agree_witness :
  stores_agree (snd (handle accepting (Upload report) world_p1))
  /\ stores_agree (snd (handle failing (Upload report) world_p1))
  /\ stores_agree (snd (handle accepting (Delete "p1") world_p1)).
Proof.
  split; [|split].
  - apply (proj1 (proj2 (pdf_and_doc_storage_agree accepting))), world_p1_agrees.
  - apply (proj1 (proj2 (pdf_and_doc_storage_agree failing))), world_p1_agrees.
  - apply (proj1 (proj2 (pdf_and_doc_storage_agree accepting))), world_p1_agrees.
Defined.

(** *** Further examples *)

Import More.

Lemma chat_unknown_pdf_not_found_witness :
  chat_with_pdf down ask_unknown world_p1
  = (Raise (HTTPException 404 (JStr "PDF not found")), world_p1).
Proof. apply (chat_unknown_pdf_not_found down ask_unknown world_p1). reflexivity. Defined.

Lemma delete_unknown_pdf_not_found_witness :
  delete_pdf "p2" world_p1 = (Raise (HTTPException 404 (JStr "PDF not found")), world_p1)
  /\ forall env, handle env (Delete "p2") world_p1 = (false, world_p1).
Proof. apply (delete_unknown_pdf_not_found "p2" world_p1). reflexivity. Defined.

Lemma delete_known_pdf_removes_record_and_file_witness :
  exists w',
    delete_pdf "p1" world_p1 = (Ok "PDF p1 deleted successfully", w')
    /\ pdf_storage w' !! "p1" = None
    /\ doc_storage w' !! "p1" = None
    /\ disk w' !! "./uploaded_pdfs/p1.pdf" = None.
Proof.
  destruct (delete_known_pdf_removes_record_and_file "p1" world_p1 info_p1 eq_refl)
    as (w' & Hrun & Hp & Hd & Hf & _).
  exists w'. done.
Defined.

Lemma deleted_pdf_is_not_found_witness :
  let w' := snd (delete_pdf "p1" world_p1) in
  delete_pdf "p1" w' = (Raise (HTTPException 404 (JStr "PDF not found")), w')
  /\ chat_with_pdf down ask w' = (Raise (HTTPException 404 (JStr "PDF not found")), w').
Proof.
  destruct (deleted_pdf_is_not_found down "p1" world_p1 info_p1
              "PDF p1 deleted successfully" (snd (delete_pdf "p1" world_p1))
              eq_refl eq_refl) as [Hdelete Hchat].
  split; [exact Hdelete|]. exact (Hchat "What is it about?" (Some "s1")).
Defined.

Lemma upload_then_delete_leaves_nothing_witness :
  exists w2,
    delete_pdf first_id (snd (upload_pdf accepting report world_p1))
    = (Ok ("PDF " +:+ first_id +:+ " deleted successfully"), w2)
    /\ pdf_storage w2 = pdf_storage world_p1
    /\ doc_storage w2 = doc_storage world_p1
    /\ disk w2 = disk world_p1.
Proof.
  destruct (upload_then_delete_leaves_nothing accepting report world_p1
              {| up_pdf_id := first_id; up_filename := "Report.PDF"; up_status := "success" |}
              (snd (upload_pdf accepting report world_p1)) eq_refl)
    as (w2 & Hrun & _ & _ & _ & Hfresh).
  exists w2. split; [exact Hrun|]. apply Hfresh; reflexivity.
Defined.

Lemma more_ask_reaches_try endpoint :
  chat_reaches_try (chatting endpoint) ask world_p1 tree "s1" at_try.
Proof. exists info_p1. repeat split. Defined.

Lemma chat_failure_in_try_is_500_witness :
  (exists resp, fst (chat_with_pdf (answering reply_numbers) ask world_p1) = Ok resp)
  \/ (exists e,
        fst (chat_with_pdf (answering reply_numbers) ask world_p1)
        = Raise (HTTPException 500
                   (JStr ("Error processing query: " +:+ exn_str (answering reply_numbers) e)))).
Proof.
  apply (chat_failure_in_try_is_500 (answering reply_numbers) ask world_p1 tree "s1" at_try).
  apply more_ask_reaches_try.
Defined.

Lemma chat_success_returns_answer_text_witness :
  fst (chat_with_pdf (answering reply_AB) ask world_p1)
  = Ok {| response := reply_answer; chat_session_id := "s1"; timestamp := 4 |}.
Proof.
  destruct (chat_success_returns_answer_text (answering reply_AB) ask world_p1 tree "s1" at_try
              (JStr reply_AB) (selected (answering reply_AB))
              ("cat" +:+ nl +:+ nl +:+ "dog") reply_answer
              (answered (answering reply_AB) ("cat" +:+ nl +:+ nl +:+ "dog")))
    as [Hrun _].
  - apply more_ask_reaches_try.
  - reflexivity.
  - reflexivity.
  - reflexivity.
  - reflexivity.
  - rewrite Hrun. reflexivity.
Defined.

Lemma chat_success_only_through_both_stages_witness :
  exists tree' sid w1 out w2 ctx,
    chat_reaches_try (answering reply_AB) ask world_p1 tree' sid w1
    /\ telkomllm_call (answering reply_AB) (selection_prompt (answering reply_AB) ask tree')
         3000 0%Q w1 = (Ok out, w2)
    /\ relevant_content (answering reply_AB) tree' out = Ok ctx
    /\ telkomllm_call (answering reply_AB) (answer_prompt (message ask) ctx) 3000 0%Q w2
       = (Ok (JStr reply_answer),
          answered (answering reply_AB) ("cat" +:+ nl +:+ nl +:+ "dog"))
    /\ "s1" = sid.
Proof.
  apply (chat_success_only_through_both_stages (answering reply_AB) ask world_p1
           {| response := reply_answer; chat_session_id := "s1"; timestamp := 4 |}
           (answered (answering reply_AB) ("cat" +:+ nl +:+ nl +:+ "dog"))).
  reflexivity.
Defined.


Lemma chat_reply_missing_key_fails_witness :
  fst (chat_with_pdf (answering reply_bare) ask world_p1)
  = Raise (HTTPException 500 (JStr "Error processing query: 'thinking'")).
Proof.
  destruct (chat_reply_missing_key_fails (answering reply_bare) ask world_p1 tree "s1" at_try
              (JStr reply_bare) (selected (answering reply_bare))
              [("node_list", JArr [JStr "A"])] "thinking") as [Hrun _].
  - apply more_ask_reaches_try.
  - reflexivity.
  - reflexivity.
  - left. split; reflexivity.
  - rewrite Hrun. reflexivity.
Defined.

Lemma chat_ill_typed_node_list_fails_witness :
  exists e,
    chat_with_pdf (answering reply_numbers) ask world_p1 =
      (Raise (HTTPException 500
                (JStr ("Error processing query: " +:+ exn_str (answering reply_numbers) e))),
       selected (answering reply_numbers))
    /\ forall ctx,
        chat_payload (answering reply_numbers) (answer_prompt (message ask) ctx)
          ∉ drop (length (posts (log world_p1)))
              (posts (log (selected (answering reply_numbers)))).
Proof.
  apply (chat_ill_typed_node_list_fails (answering reply_numbers) ask world_p1 tree "s1" at_try
           (JStr reply_numbers) (selected (answering reply_numbers))
           (JObj [("thinking", JStr "pages one and two");
                  ("node_list", JArr [JNum 1; JNum 2])])
           (JArr [JNum 1; JNum 2])).
  - apply more_ask_reaches_try.
  - reflexivity.
  - reflexivity.
  - reflexivity.
  - right. right. right. exists [JNum 1; JNum 2], (JNum 1).
    split; [reflexivity|]. split; [repeat constructor | discriminate].
Defined.

Lemma upload_then_chat_asks_for_returned_document_witness :
  let w1 := snd (upload_pdf pending report world_p1) in
  let req := {| message := "What is it about?"; pdf_id := first_id; session_id := None |} in
  doc_storage w1 !! first_id = Some (JStr "doc-9")
  /\ (exists calls,
         log (snd (chat_with_pdf pending req w1)) = log w1 ++ EvReady (JStr "doc-9") :: calls)
  /\ fst (chat_with_pdf pending req w1)
     = Raise (HTTPException 400
                (JStr "Document is still processing, please try again later.")).
Proof.
  destruct (upload_then_chat_asks_for_returned_document pending report world_p1
              {| up_pdf_id := first_id; up_filename := "Report.PDF"; up_status := "success" |}
              (snd (upload_pdf pending report world_p1)) "What is it about?" None eq_refl)
    as (d & Hproc & Hdoc & Hcalls & Hwait).
  injection Hproc as <-.
  split; [exact Hdoc|]. split; [exact Hcalls|]. apply Hwait. reflexivity.
Defined.

Lemma api_call_reads_content_or_reports_witness :
  exists v,
    make_async_api_call (answering reply_AB) "https://llm.example/v1/chat" "token"
      (llm_payload "Hello" 3000 0%Q) at_try
    = (Ok v, with_event (EvPost "https://llm.example/v1/chat" "token"
                           (llm_payload "Hello" 3000 0%Q)) at_try)
    /\ v = JStr reply_AB.
Proof.
  destruct (api_call_reads_content_or_reports (answering reply_AB)
              "https://llm.example/v1/chat" "token" (llm_payload "Hello" 3000 0%Q) at_try
              {| status_code := 200; body := body_of reply_AB |} eq_refl eq_refl)
    as (v & Hrun & Hcontent & _).
  exists v. split; [exact Hrun|].
  apply (Hcontent (body_json reply_AB)
           (JObj [("message", JObj [("content", JStr reply_AB)])]) []
           (JObj [("content", JStr reply_AB)]) (JStr reply_AB)); reflexivity.
Defined.

Lemma chat_endpoint_down_fails_after_one_retry_witness :
  exists w2,
    chat_with_pdf down ask world_p1 =
      (Raise (HTTPException 500 (JStr "Error processing query: TypeError")), w2)
    /\ posts (log w2)
       = [chat_payload down (selection_prompt down ask tree);
          chat_payload down (selection_prompt down ask tree)].
Proof.
  destruct (chat_endpoint_down_fails_after_one_retry down ask world_p1 tree "s1" at_try
              (External "connection refused") (External "connection refused"))
    as (w2 & Hrun & _ & Hposts).
  - apply more_ask_reaches_try.
  - reflexivity.
  - reflexivity.
  - exists w2. split; [exact Hrun | exact Hposts].
Defined.

Lemma chat_answer_error_indicator_fails_witness :
  chat_with_pdf selecting_only ask world_p1 =
    (Raise (HTTPException 500
              (JStr "Error processing query: 'dict' object has no attribute 'splitlines'")),
     answered selecting_only "cat

dog").
Proof.
  destruct (chat_answer_error_indicator_fails selecting_only ask world_p1 tree "s1" at_try
              (JStr reply_AB) (selected selecting_only) "cat

dog"
              (error_dict "connection refused")
              (answered selecting_only "cat

dog"))
    as (e & Hrun & Hraised).
  - apply more_ask_reaches_try.
  - reflexivity.
  - reflexivity.
  - reflexivity.
  - reflexivity.
  - cbn in Hraised. subst e. exact Hrun.
Defined.

Lemma records_point_into_upload_directory_witness :
  let info := {| filename := "Report.PDF"; file_path := first_path;
                 doc_id := JStr "doc-9"; upload_time := 1 |} in
  file_path info = storage_dir accepting +:+ first_id +:+ ".pdf"
  /\ String.length first_id = 36%nat
  /\ Forall (fun c => c <> "/"%char) (list_ascii_of_string (first_id +:+ ".pdf"))
  /\ ends_in_pdf (filename info).
Proof.
  apply (records_point_into_upload_directory accepting ∅ [Upload report]). reflexivity.
Defined.

Lemma upload_checks_extension_first_size_inclusive_witness :
  upload_pdf accepting notes world_p1
  = (Raise (HTTPException 400 (JStr "Only PDF files are allowed")), world_p1)
  /\ upload_pdf accepting large world_p1
     = (Raise (HTTPException 400 (JStr "File size exceeds maximum allowed size")), world_p1)
  /\ forall detail, fst (upload_pdf accepting full world_p1) <> Raise (HTTPException 400 detail).
Proof.
  destruct (upload_checks_extension_first_size_inclusive accepting notes world_p1)
    as (Hnotes & _).
  destruct (upload_checks_extension_first_size_inclusive accepting large world_p1)
    as (_ & Hlarge & _).
  destruct (upload_checks_extension_first_size_inclusive accepting full world_p1)
    as (_ & _ & Hfull).
  split; [|split].
  - apply Hnotes. intros Hext%extension_check_spec. discriminate Hext.
  - apply Hlarge; [by apply extension_check_spec | reflexivity].
  - apply Hfull; [by apply extension_check_spec | discriminate].
Defined.
